(** * khutab-audio-journey: the sermon requester of [src/lib/api.ts]

    A shallow embedding of [generateKhutba]: the connectivity probe, the
    bounded retry loop around [fetch], the classification of caught errors
    and the fallback to the bundled sample sermons.

    Conventions of the embedding.
    - A JavaScript string is the sequence of its UTF-16 code units.
      [toLowerCase] maps the ASCII letters; [toUpperCase] maps the ASCII
      letters of an ASCII string and is the Unicode case mapping of the
      runtime, a table taken from the environment, on any other string.
    - The world outside the function is an environment: the value of
      [navigator.onLine], what the n-th call of [fetch] does, the value
      [Math.random()] returns and the Unicode upper-case mapping. Reading
      the body of a response that has arrived as text is taken to succeed.
    - Effects (network calls, back-off waits, toasts) are recorded in a
      trace threaded through a small state-and-exception monad.
    - Numbers are binary64: [Math.random() * 3] is the exact product
      rounded to the nearest double, ties to even. *)

From Stdlib Require Import ZArith NArith QArith Qround List Bool Lia Lqa.
From Stdlib Require Strings.String Strings.Ascii Numbers.DecimalString.
From Stdlib Require Import Strings.Byte.
Import ListNotations.

Local Open Scope Z_scope.

(** ** JavaScript strings *)

(** A UTF-16 code unit. *)
Definition codeunit : Set := N.

Inductive string : Set :=
| EmptyString
| String (c : codeunit) (rest : string).

Declare Scope js_scope.
Delimit Scope js_scope with js.
Bind Scope js_scope with string.

(** String literals of this file: ASCII text, one code unit a byte. *)
Module Literal.

Fixpoint ofBytes (l : list byte) : option string :=
  match l with
  | [] => Some EmptyString
  | b :: rest =>
      if (Byte.to_N b <? 128)%N
      then option_map (String (Byte.to_N b)) (ofBytes rest)
      else None
  end.

Fixpoint toBytes (s : string) : option (list byte) :=
  match s with
  | EmptyString => Some []
  | String c rest =>
      if (c <? 128)%N then
        match Byte.of_N c, toBytes rest with
        | Some b, Some l => Some (b :: l)
        | _, _ => None
        end
      else None
  end.

End Literal.

String Notation string Literal.ofBytes Literal.toBytes : js_scope.

Local Open Scope js_scope.

(** ** JavaScript string primitives *)

Module JsString.

Fixpoint append (s t : string) : string :=
  match s with
  | EmptyString => t
  | String c rest => String c (append rest t)
  end.

Fixpoint length (s : string) : nat :=
  match s with
  | EmptyString => 0%nat
  | String _ rest => S (length rest)
  end.

(** [s === t] *)
Fixpoint eqb (s t : string) : bool :=
  match s, t with
  | EmptyString, EmptyString => true
  | String a s', String b t' => (a =? b)%N && eqb s' t'
  | _, _ => false
  end.

(** [p] is a prefix of [s]. *)
Fixpoint prefix (p s : string) : bool :=
  match p with
  | EmptyString => true
  | String a p' =>
      match s with
      | EmptyString => false
      | String b s' => if (a =? b)%N then prefix p' s' else false
      end
  end.

(** [s.startsWith(p)] *)
Definition startsWith (s p : string) : bool := prefix p s.

(** [s.includes(needle)]: [needle] occurs at some position of [s]. *)
Fixpoint includes (s needle : string) : bool :=
  prefix needle s ||
  match s with
  | EmptyString => false
  | String _ rest => includes rest needle
  end.

Definition lowerChar (c : codeunit) : codeunit :=
  if ((65 <=? c) && (c <=? 90))%N then (c + 32)%N else c.

Definition upperChar (c : codeunit) : codeunit :=
  if ((97 <=? c) && (c <=? 122))%N then (c - 32)%N else c.

Fixpoint mapChars (f : codeunit -> codeunit) (s : string) : string :=
  match s with
  | EmptyString => EmptyString
  | String c rest => String (f c) (mapChars f rest)
  end.

Definition isAsciiChar (c : codeunit) : bool := (c <? 128)%N.

Fixpoint isAsciiString (s : string) : bool :=
  match s with
  | EmptyString => true
  | String c rest => isAsciiChar c && isAsciiString rest
  end.

(** [s.toLowerCase()] on the ASCII letters. The code searches the result
    for ASCII markers only (lines 106-108). *)
Definition toLowerCase : string -> string := mapChars lowerChar.

(** [s.toUpperCase()]: the ASCII letters of an ASCII string are mapped
    one by one; a string with a code unit outside ASCII is mapped by
    [unicode], the Unicode case mapping of the runtime. *)
Definition upperCaseWith (unicode : string -> string) (s : string) : string :=
  if isAsciiString s then mapChars upperChar s else unicode s.

(** [s.charAt(0)]: the empty string when [s] is empty. *)
Definition charAt0 (s : string) : string :=
  match s with
  | EmptyString => EmptyString
  | String c _ => String c EmptyString
  end.

(** [s.slice(1)] *)
Definition slice1 (s : string) : string :=
  match s with
  | EmptyString => EmptyString
  | String _ rest => rest
  end.

(** A string in a condition: the empty string is falsy. *)
Definition truthy (s : string) : bool := negb (eqb s EmptyString).

Fixpoint ofAscii (s : Strings.String.string) : string :=
  match s with
  | Strings.String.EmptyString => EmptyString
  | Strings.String.String c rest => String (Ascii.N_of_ascii c) (ofAscii rest)
  end.

(** An integer inside a template literal. *)
Definition ofNumber (n : Z) : string :=
  ofAscii (DecimalString.NilZero.string_of_int (Z.to_int n)).

End JsString.

Infix "++" := JsString.append (right associativity, at level 60) : js_scope.

Import JsString.

(** ** Data model *)

Inductive ErrorType := Network | Server | Auth | Other.

(** [interface Sermon]. The optional fields are options. [audio_url] is an
    option as well: the body of a response is cast to [Sermon] unchecked,
    and the code tests the field for presence. *)
Record Sermon := mkSermon {
  audio_url : option string;
  text : string;
  title : string;
  fullAudioUrl : option string;
  purpose : option string;
  errorType : option ErrorType
}.

Definition API_BASE_URL : string := "https://islamicaudio.techrealm.online".

Definition sampleSermon : Sermon := {|
  audio_url := Some "/audio/the-transformative-power-of-patience-a-journey-of-self-discovery-and-unity_with_background.wav";
  text := "In the name of Allah, the Most Gracious, the Most Merciful. Today, we reflect on the virtue of patience in Islam. Patience, or 'sabr' in Arabic, is mentioned over 90 times in the Quran, highlighting its significance in our faith. The Prophet Muhammad (peace be upon him) said, 'Patience is light.' Through patience, we find strength in hardship, clarity in confusion, and peace in turmoil. Let us remember that Allah is with those who are patient, as mentioned in Surah Al-Baqarah: 'O you who have believed, seek help through patience and prayer. Indeed, Allah is with the patient.' As we face life's challenges, let us cultivate patience in our hearts, knowing that with every difficulty comes ease.";
  title := "The Virtue of Patience in Islam";
  fullAudioUrl := Some "https://islamicaudio.techrealm.online/audio/the-transformative-power-of-patience-a-journey-of-self-discovery-and-unity_with_background.wav";
  purpose := None;
  errorType := None
|}.

Definition sampleSermons : list Sermon := [
  sampleSermon;
  {| audio_url := Some "/audio/the-transformative-power-of-patience-a-journey-of-self-discovery-and-unity_with_background.wav";
     text := "Bismillah. The Prophet Muhammad (peace be upon him) said: 'The strong person is not the one who overcomes people with his strength, but the one who controls himself when angry.' Today we explore how controlling our anger leads to inner peace and stronger community bonds. Through mindfulness and remembrance of Allah, we can transform anger into patience and understanding. Remember the words from the Quran: 'Those who spend (in Allah's way) in prosperity and in adversity, who restrain anger and pardon people. And Allah loves the doers of good.'";
     title := "Managing Anger: The Islamic Approach to Emotional Control";
     fullAudioUrl := Some "https://islamicaudio.techrealm.online/audio/the-transformative-power-of-patience-a-journey-of-self-discovery-and-unity_with_background.wav";
     purpose := None;
     errorType := None |};
  {| audio_url := Some "/audio/the-transformative-power-of-patience-a-journey-of-self-discovery-and-unity_with_background.wav";
     text := "In the name of Allah, the Most Compassionate, the Most Merciful. Gratitude (shukr) is central to our faith. The Quran repeatedly reminds us, 'If you are grateful, I will surely increase you [in favor].' By recognizing and appreciating Allah's countless blessings, we cultivate contentment and resilience. Gratitude transforms our perspective, allowing us to see challenges as opportunities for growth rather than obstacles. Let us practice gratitude daily through our prayers, actions, and interactions with others.";
     title := "The Power of Gratitude in Islamic Tradition";
     fullAudioUrl := Some "https://islamicaudio.techrealm.online/audio/the-transformative-power-of-patience-a-journey-of-self-discovery-and-unity_with_background.wav";
     purpose := None;
     errorType := None |}
].

(** ** The environment of one call *)

(** A thrown value: an [Error] with its message, or anything that is not an
    instance of [Error]. *)
Inductive Thrown :=
| ThrownError (message : string)
| ThrownOther.

(** [await response.json()]: rejects (the body is no JSON), or yields the
    decoded body. A decoded value that the code cannot handle as an object
    ([null], say) makes the same [try] block throw a [TypeError] and is
    covered by [JsonRejects] with that error. *)
Inductive JsonOutcome :=
| JsonRejects (e : Thrown)
| JsonValue (data : Sermon).

(** What the code reads of a [Response]: [status], [statusText], the result
    of [text()] and the result of [json()]. The code calls [text()] on a
    response that is not ok and [json()] on one that is, never both. *)
Record Response := mkResponse {
  status : Z;
  statusText : string;
  bodyText : string;
  bodyJson : JsonOutcome
}.

(** [response.ok]: by the Fetch standard, the status is in 200..299. *)
Definition ok (r : Response) : bool := (200 <=? status r) && (status r <=? 299).

(** [await fetch(...)]: rejects (network failure, abort, timeout), or
    resolves to a response. *)
Inductive FetchOutcome :=
| FetchRejects (e : Thrown)
| FetchResolves (r : Response).

(** The largest binary64 value below 1: 1 - 2^-53. *)
Definition maxDraw : Q := 9007199254740991 # 9007199254740992.

(** A value of [Math.random()]: a binary64 number in [0, 1), so at most
    [maxDraw]. *)
Record UnitDraw := mkDraw {
  draw : Q;
  draw_range : (0 <= draw /\ draw <= maxDraw)%Q
}.

Record Env := mkEnv {
  navigator : option bool;        (* navigator.onLine; None: no navigator *)
  network : nat -> FetchOutcome;  (* the n-th call of fetch, n from 0 *)
  random : UnitDraw;              (* Math.random() *)
  unicodeUpperCase : string -> string
    (* String.prototype.toUpperCase on a string that is not ASCII *)
}.

(** ** Effects *)

Inductive Event :=
| EvFetch (url body_purpose : string)
| EvWait (ms : Z)
| EvToastError (heading description : string)
| EvToastWarning (heading description : string).

Definition Trace := list Event.

Definition isFetch (e : Event) : bool :=
  match e with EvFetch _ _ => true | _ => false end.

(** Number of request attempts in a trace. *)
Definition attempts (t : Trace) : nat := List.length (filter isFetch t).

(** The back-off waits of a trace, in order. *)
Fixpoint waits (t : Trace) : list Z :=
  match t with
  | [] => []
  | EvWait ms :: rest => ms :: waits rest
  | _ :: rest => waits rest
  end.

(** How a computation ends: normally, by a [throw], or because the model's
    loop fuel ran out (never the case for [generateKhutba], see
    [generateKhutbaWith_fuel]). *)
Inductive Completion (A : Type) :=
| Normal (a : A)
| Throw (e : Thrown)
| OutOfFuel.

Arguments Normal {A} a.
Arguments Throw {A} e.
Arguments OutOfFuel {A}.

Module Effect.

Definition M (A : Type) : Type := Trace -> Completion A * Trace.

Definition ret {A} (a : A) : M A := fun t => (Normal a, t).

Definition bind {A B} (m : M A) (k : A -> M B) : M B :=
  fun t =>
    match m t with
    | (Normal a, t') => k a t'
    | (Throw e, t') => (Throw e, t')
    | (OutOfFuel, t') => (OutOfFuel, t')
    end.

Definition throw {A} (e : Thrown) : M A := fun t => (Throw e, t).

Definition outOfFuel {A} : M A := fun t => (OutOfFuel, t).

(** A completion that touches no state. *)
Definition complete {A} (c : Completion A) : M A := fun t => (c, t).

(** [try { m } catch (error) { handler error }] *)
Definition tryCatch {A} (m : M A) (handler : Thrown -> M A) : M A :=
  fun t =>
    match m t with
    | (Throw e, t') => handler e t'
    | done => done
    end.

Definition emit (e : Event) : M unit := fun t => (Normal tt, (t ++ [e])%list).

(** How many calls of [fetch] were made so far. *)
Definition fetchCount : M nat := fun t => (Normal (attempts t), t).

End Effect.

Import Effect.

Notation "x <- m ;; k" := (bind m (fun x => k))
  (at level 61, m at next level, right associativity).
Notation "m ;;; k" := (bind m (fun _ => k))
  (at level 61, right associativity).

(** ** generateKhutba *)

Definition maxRetries : Z := 2.

(** [isOnline()]: [typeof navigator !== 'undefined' && navigator.onLine] *)
Definition isOnline (env : Env) : bool :=
  match navigator env with
  | Some onLine => onLine
  | None => false
  end.

(** Lines 118-135: the purpose is stored and the full audio URL built. *)
Definition withFullAudioUrl (purpose0 : string) (data : Sermon) : Sermon :=
  let full :=
    match audio_url data with
    | Some u =>
        if truthy u then
          if startsWith u "http" then u
          else
            let audioPath := if startsWith u "/" then u else "/" ++ u in
            API_BASE_URL ++ audioPath
        else ""
    | None => ""
    end in
  {| audio_url := audio_url data;
     text := text data;
     title := title data;
     fullAudioUrl := Some full;
     purpose := Some purpose0;
     errorType := errorType data |}.

(** Lines 105-108: the check of a non-ok response for an authentication
    failure. *)
Definition isAuthResponse (response : Response) : bool :=
  let errorData := bodyText response in
  (status response =? 401)
  || (truthy errorData && includes (toLowerCase errorData) "unauthenticated")
  || (truthy errorData && includes (toLowerCase errorData) "authentication token")
  || (truthy errorData && includes (toLowerCase errorData) "auth").

(** Line 101 *)
Definition serverErrorMessage (response : Response) : string :=
  "Server responded with " ++ ofNumber (status response) ++ ": "
    ++ statusText response ++ ". " ++ bodyText response.

(** Lines 94-137: what the inner [try] does with the settled [fetch]. *)
Definition handleOutcome (purpose0 : string) (o : FetchOutcome) : Completion Sermon :=
  match o with
  | FetchRejects e => Throw e
  | FetchResolves response =>
      if negb (ok response) then
        if isAuthResponse response
        then Throw (ThrownError "authentication_required")
        else Throw (ThrownError (serverErrorMessage response))
      else
        match bodyJson response with
        | JsonRejects e => Throw e
        | JsonValue data => Normal (withFullAudioUrl purpose0 data)
        end
  end.

(** Lines 84-92: the POST request with the body [{purpose}]. *)
Definition fetchEvent (purpose0 : string) : Event :=
  EvFetch (API_BASE_URL ++ "/generate-khutab") purpose0.

(** Lines 81-137: the body of the inner [try], one request attempt. *)
Definition attemptOnce (env : Env) (purpose0 : string) : M Sermon :=
  n <- fetchCount ;;
  emit (fetchEvent purpose0) ;;;
  complete (handleOutcome purpose0 (network env n)).

(** Line 139: [error instanceof Error ? error : new Error('Unknown error')];
    an [Error] is represented by its message. *)
Definition toError (error : Thrown) : string :=
  match error with
  | ThrownError message => message
  | ThrownOther => "Unknown error"
  end.

(** Lines 143-145 *)
Definition isAuthMessage (message : string) : bool :=
  JsString.eqb message "authentication_required"
  || includes message "authentication"
  || includes message "Unauthenticated".

(** Lines 151-158 *)
Definition isNetworkError (message : string) : bool :=
  includes message "Failed to fetch"
  || includes message "Network error"
  || includes message "network"
  || includes message "AbortError"
  || includes message "timed out"
  || includes message "abort"
  || includes message "Load failed".

(** Line 173: [throw lastError || new Error('Maximum retries reached')] *)
Definition afterLoop (lastError : option string) : M Sermon :=
  match lastError with
  | Some message => throw (ThrownError message)
  | None => throw (ThrownError "Maximum retries reached")
  end.

(** Lines 79-173: the [while] loop and the [throw] after it. Each
    iteration takes one unit of fuel. *)
Fixpoint retryLoop (fuel : nat) (env : Env) (purpose0 : string)
    (retryCount : Z) (lastError : option string) : M Sermon :=
  match fuel with
  | O => outOfFuel
  | S fuel' =>
      if retryCount <=? maxRetries then
        tryCatch (attemptOnce env purpose0)
          (fun error =>
             let lastError := toError error in
             if isAuthMessage lastError then
               (* break *)
               afterLoop (Some lastError)
             else if isNetworkError lastError && (retryCount <? maxRetries) then
               let retryCount := retryCount + 1 in
               let waitTime := 1000 * 2 ^ retryCount in
               emit (EvWait waitTime) ;;;
               retryLoop fuel' env purpose0 retryCount (Some lastError)
             else
               throw (ThrownError lastError))
      else afterLoop lastError
  end.

(** Lines 52-173: the body of the outer [try]. The 30 second abort timer
    acts through the environment: an aborted [fetch] rejects. *)
Definition tryBody (fuel : nat) (env : Env) (purpose0 : string) : M Sermon :=
  if negb (isOnline env) then throw (ThrownError "network_offline")
  else retryLoop fuel env purpose0 0 None.

(** Lines 179-222: the error type and the message shown for a caught
    value. *)
Definition classify (error : Thrown) : ErrorType * string :=
  match error with
  | ThrownError message =>
      if JsString.eqb message "network_offline" then
        (Network, "Your device is offline. Please check your internet connection.")
      else if JsString.eqb message "authentication_required"
              || includes message "authentication"
              || includes message "Unauthenticated"
              || includes message "auth token" then
        (Auth, "Authentication required. The API requires authentication credentials.")
      else if isNetworkError message then
        (Network, "Network connection error. Unable to reach sermon server.")
      else if includes message "500"
              || includes message "503"
              || includes message "server" then
        (Server, "The sermon server is experiencing issues. Please try again later.")
      else (Other, message)
  | ThrownOther => (Other, "Unknown error occurred")
  end.

(** Lines 225-246 *)
Definition errorToast (kind : ErrorType) (errorMessage : string) : Event :=
  match kind with
  | Network =>
      EvToastError "Network Connection Error"
        "Unable to connect to sermon server. Please check your internet connection."
  | Server => EvToastError "Server Error" errorMessage
  | Auth =>
      EvToastError "Authentication Error"
        "The sermon server requires authentication. Using sample sermons instead."
  | Other => EvToastError "Failed to generate sermon" errorMessage
  end.

(** The integer nearest to [y], the even one of two that are as near. *)
Definition roundHalfEven (y : Q) : Z :=
  let f := Qfloor y in
  match (y - inject_Z f ?= 1 # 2)%Q with
  | Lt => f
  | Gt => f + 1
  | Eq => if Z.even f then f else f + 1
  end.

(** [floor (log2 x)] for a positive [x]. *)
Definition binade (x : Q) : Z :=
  let n := Qnum x in
  let d := Z.pos (Qden x) in
  let c := Z.log2 n - Z.log2 d in
  if (if 0 <=? c then 2 ^ c * d <=? n else d <=? n * 2 ^ (- c)) then c else c - 1.

(** The exponent of the unit in the last place of the binary64 numbers
    around a positive [x]: 53 significant bits, subnormal below 2^-1022. *)
Definition ulpExponent (x : Q) : Z := Z.max (binade x - 52) (-1074).

Definition roundPositive (x : Q) : Q :=
  let q := ulpExponent x in
  if q <? 0
  then (inject_Z (roundHalfEven (x * inject_Z (2 ^ (- q)))) / inject_Z (2 ^ (- q)))%Q
  else inject_Z (roundHalfEven (x / inject_Z (2 ^ q)) * 2 ^ q).

(** The binary64 number nearest to [x], ties to even (no overflow: the
    products of this file are below 3). *)
Definition roundToDouble (x : Q) : Q :=
  match (x ?= 0)%Q with
  | Eq => 0%Q
  | Gt => roundPositive x
  | Lt => (- roundPositive (- x))%Q
  end.

(** Line 249: [Math.floor(Math.random() * sampleSermons.length)] *)
Definition randomIndex (env : Env) : Z :=
  Qfloor (roundToDouble
            (draw (random env) * inject_Z (Z.of_nat (List.length sampleSermons)))).

(** [array[i]]: [undefined] outside the array. *)
Definition arrayGet {A} (l : list A) (i : Z) : option A :=
  if i <? 0 then None else nth_error l (Z.to_nat i).

(** [s.toUpperCase()] in the runtime of [env]. *)
Definition toUpperCase (env : Env) (s : string) : string :=
  upperCaseWith (unicodeUpperCase env) s.

(** Line 253 *)
Definition capitalize (env : Env) (purpose0 : string) : string :=
  toUpperCase env (charAt0 purpose0) ++ slice1 purpose0.

(** Lines 262-267: the spread of the table entry with three fields
    replaced. *)
Definition fallbackFrom (env : Env) (entry : Sermon) (purpose0 : string) (kind : ErrorType)
  : Sermon :=
  {| audio_url := audio_url entry;
     text := text entry;
     title := title entry ++ " - " ++ capitalize env purpose0;
     fullAudioUrl := fullAudioUrl entry;
     purpose := Some purpose0;
     errorType := Some kind |}.

(** Lines 175-268: the outer [catch]. Reading [title] of [undefined]
    would throw a [TypeError]. *)
Definition onFailure (env : Env) (purpose0 : string) (error : Thrown) : M Sermon :=
  let '(kind, errorMessage) := classify error in
  emit (errorToast kind errorMessage) ;;;
  match arrayGet sampleSermons (randomIndex env) with
  | None => throw (ThrownError "Cannot read properties of undefined (reading 'title')")
  | Some fallbackSermon =>
      emit (EvToastWarning "Using sample sermon data as fallback"
              "Real sermon generation is unavailable at the moment.") ;;;
      ret (fallbackFrom env fallbackSermon purpose0 kind)
  end.

Definition generateKhutbaWith (fuel : nat) (env : Env) (purpose0 : string)
  : Completion Sermon * Trace :=
  tryCatch (tryBody fuel env purpose0) (onFailure env purpose0) [].

(** [generateKhutba(purpose)]: the completion of the returned promise
    ([Normal]: it resolves, [Throw]: it rejects) and the trace of effects.
    The loop runs at most [maxRetries + 1] times. *)
Definition generateKhutba (env : Env) (purpose0 : string)
  : Completion Sermon * Trace :=
  generateKhutbaWith (S (Z.to_nat maxRetries)) env purpose0.

(** ** Vocabulary of the statements *)

(** The attempt ends in an error that the loop's [catch] retries while
    attempts remain: no authentication marker, and a network marker. *)
Definition retried (purpose0 : string) (o : FetchOutcome) : bool :=
  match handleOutcome purpose0 o with
  | Throw e => negb (isAuthMessage (toError e)) && isNetworkError (toError e)
  | _ => false
  end.

(** The wait before retry number [n], [n] from 0. *)
Definition backoff (n : nat) : Z := 1000 * 2 ^ (Z.of_nat n + 1).

(** The events of [k] retried attempts, the first of them attempt [j]. *)
Definition retries (purpose0 : string) (j k : nat) : Trace :=
  List.concat (map (fun i => [fetchEvent purpose0; EvWait (backoff i)]) (seq j k)).

(** The events of the request loop when attempt [k] is its last. *)
Definition runTrace (purpose0 : string) (k : nat) : Trace :=
  (retries purpose0 0 k ++ [fetchEvent purpose0])%list.

Definition isToast (e : Event) : bool :=
  match e with
  | EvToastError _ _ | EvToastWarning _ _ => true
  | _ => false
  end.

(** The rule of lines 124-129 for a non-empty [audio_url]. *)
Definition resolvedUrl (u : string) : string :=
  if startsWith u "http" then u
  else API_BASE_URL ++ (if startsWith u "/" then u else "/" ++ u).

(** The code's own test for an absolute URL (line 124). *)
Definition isAbsolute (u : string) : bool := startsWith u "http".

(** The two toasts of the outer [catch] (lines 225-259) for a caught
    value. *)
Definition fallbackToasts (error : Thrown) : Trace :=
  [errorToast (fst (classify error)) (snd (classify error));
   EvToastWarning "Using sample sermon data as fallback"
     "Real sermon generation is unavailable at the moment."].

(** A Sermon with another [audio_url]. *)
Definition setAudioUrl (data : Sermon) (url : option string) : Sermon :=
  {| audio_url := url;
     text := text data;
     title := title data;
     fullAudioUrl := fullAudioUrl data;
     purpose := purpose data;
     errorType := errorType data |}.

(** The data request [k] is answered with: a response with a status in
    200..299 whose body decodes. *)
Definition answeredWith (env : Env) (k : nat) : option Sermon :=
  match network env k with
  | FetchRejects _ => None
  | FetchResolves r =>
      if ok r then
        match bodyJson r with
        | JsonRejects _ => None
        | JsonValue data => Some data
        end
      else None
  end.

(** ** Sample environments *)

Definition halfDraw : UnitDraw :=
  mkDraw (1 # 2) ltac:(split; discriminate).

(** 0.6666666666666666, the double nearest to two thirds: three times it
    is 2 - 2^-53, which rounds to 2. *)
Definition twoThirdsDraw : UnitDraw :=
  mkDraw (6004799503160661 # 9007199254740992) ltac:(split; discriminate).

(** The Unicode upper-case mapping on the Latin-1 code units, as a sample
    of the mapping of a runtime: the letters from 224 to 254 move down by
    32, the sharp s becomes two letters, the micro sign and the y with
    diaeresis leave Latin-1. *)
Definition latin1UpperChar (c : codeunit) : string :=
  if (c =? 223)%N then "SS"
  else if (c =? 181)%N then String 924%N ""
  else if (c =? 255)%N then String 376%N ""
  else if ((224 <=? c) && (c <=? 254) && negb (c =? 247))%N then String (c - 32)%N ""
  else String (upperChar c) "".

Fixpoint latin1UpperCase (s : string) : string :=
  match s with
  | EmptyString => EmptyString
  | String c rest => latin1UpperChar c ++ latin1UpperCase rest
  end.

(** A response body with a relative, an absolute, an empty and no
    [audio_url]. *)
Definition bodyOf (url : option string) : Sermon :=
  {| audio_url := url;
     text := "Patience is light.";
     title := "On Patience";
     fullAudioUrl := None;
     purpose := None;
     errorType := None |}.

Definition bodyRelative : Sermon := bodyOf (Some "foo.wav").
Definition bodyAbsolute : Sermon := bodyOf (Some "https://x/y.wav").
Definition bodyEmptyUrl : Sermon := bodyOf (Some "").
Definition bodyNoUrl : Sermon := bodyOf None.

(** A 200 response that decodes to [data]; [text()] is not called on it. *)
Definition okResponse (data : Sermon) : Response :=
  {| status := 200; statusText := "OK"; bodyText := ""; bodyJson := JsonValue data |}.

(** A failure response whose body is no JSON. *)
Definition errorResponse (code : Z) (reason body : string) : Response :=
  {| status := code; statusText := reason; bodyText := body;
     bodyJson := JsonRejects (ThrownError "Unexpected token in JSON") |}.

(** Every request gets the same answer. *)
Definition constantEnv (o : FetchOutcome) : Env :=
  {| navigator := Some true; network := fun _ => o; random := halfDraw; unicodeUpperCase := latin1UpperCase |}.

Definition offlineEnv : Env :=
  {| navigator := Some false;
     network := fun _ => FetchRejects (ThrownError "Failed to fetch");
     random := halfDraw; unicodeUpperCase := latin1UpperCase |}.

(** The first two requests fail as a dropped connection does, the third
    is answered with [data]. *)
Definition flakyEnv (data : Sermon) : Env :=
  {| navigator := Some true;
     network := fun n =>
       match n with
       | 0%nat | 1%nat => FetchRejects (ThrownError "Failed to fetch")
       | _ => FetchResolves (okResponse data)
       end;
     random := halfDraw; unicodeUpperCase := latin1UpperCase |}.

(** The requests are answered by the outcomes of [first], in order, and
    by [rest] from then on. *)
Definition sequenceEnv (first : list FetchOutcome) (rest : FetchOutcome) : Env :=
  {| navigator := Some true;
     network := fun n => nth n first rest;
     random := halfDraw; unicodeUpperCase := latin1UpperCase |}.

(** No [navigator] object, as outside a browser. *)
Definition headlessEnv : Env :=
  {| navigator := None;
     network := fun _ => FetchResolves (okResponse bodyRelative);
     random := halfDraw; unicodeUpperCase := latin1UpperCase |}.

(** A body that carries a purpose and a full URL of its own, in a 201
    response whose text mentions [Unauthenticated]. *)
Definition bodyStale : Sermon :=
  {| audio_url := Some "/a.wav"; text := "Body"; title := "Heading";
     fullAudioUrl := Some "ftp://stale"; purpose := Some "old";
     errorType := None |}.

Definition createdResponse : Response :=
  {| status := 201; statusText := "Created"; bodyText := "Unauthenticated";
     bodyJson := JsonValue bodyStale |}.

(** Offline, with a given value of [Math.random()]. *)
Definition offlineEnvAt (d : UnitDraw) : Env :=
  {| navigator := Some false;
     network := fun _ => FetchRejects (ThrownError "Failed to fetch");
     random := d;
     unicodeUpperCase := latin1UpperCase |}.

(** * Properties *)

(** ** Strings *)

Section StringFacts.

Lemma includes_empty (needle : string) :
  needle <> "" -> includes "" needle = false.
Proof.
  destruct needle; [congruence | reflexivity].
Qed.

Lemma string_eqb_eq (s t : string) : JsString.eqb s t = true <-> s = t.
Proof.
  revert t. induction s as [| a s IH]; intros [| b t]; cbn [JsString.eqb];
    try (split; [discriminate | discriminate]); try (split; reflexivity).
  rewrite andb_true_iff, N.eqb_eq, IH. split.
  - intros [-> ->]. reflexivity.
  - intros H. injection H as -> ->. split; reflexivity.
Qed.

Lemma truthy_nonempty (s : string) : truthy s = true <-> s <> "".
Proof.
  unfold truthy. destruct s; simpl; split; congruence.
Qed.

Lemma startsWith_base (rest : string) :
  startsWith (API_BASE_URL ++ rest) "http" = true.
Proof. reflexivity. Qed.

(** A body that mentions [auth] in any case is not empty. *)
Lemma includes_lower_truthy (s needle : string) :
  needle <> "" -> includes (toLowerCase s) needle = true -> truthy s = true.
Proof.
  intros Hn H. destruct s; [| reflexivity].
  change (toLowerCase "") with "" in H.
  rewrite includes_empty in H by assumption. discriminate.
Qed.

End StringFacts.

(** ** Traces *)

Section TraceFacts.

Lemma attempts_app (t u : Trace) : attempts (t ++ u)%list = (attempts t + attempts u)%nat.
Proof.
  unfold attempts. now rewrite filter_app, length_app.
Qed.

Lemma waits_app (t u : Trace) : waits (t ++ u)%list = (waits t ++ waits u)%list.
Proof.
  induction t as [| e t IH]; [reflexivity |].
  destruct e; simpl; now rewrite IH.
Qed.

(** The toasts of the outer [catch] are neither requests nor waits. *)
Lemma fallback_toasts_quiet (t : Trace) (kind : ErrorType) (msg heading description : string) :
  attempts (t ++ [errorToast kind msg; EvToastWarning heading description])%list = attempts t
  /\ waits (t ++ [errorToast kind msg; EvToastWarning heading description])%list = waits t.
Proof.
  rewrite attempts_app, waits_app.
  destruct kind; cbn; rewrite app_nil_r; split; lia || reflexivity.
Qed.

End TraceFacts.

(** Drops the two toasts of the outer [catch] from the counts of a goal. *)
Ltac quiet_toasts :=
  match goal with
  | |- context [(?t ++ [errorToast ?k ?m; EvToastWarning ?h ?d])%list] =>
      destruct (fallback_toasts_quiet t k m h d) as [-> ->]
  end.

(** ** The random index *)

Section RandomIndex.

Variable env : Env.

Lemma binade_le (x : Q) : (0 < x)%Q -> (x < 4)%Q -> binade x <= 1.
Proof.
  intros Hpos Hlt. destruct x as [n d]. unfold Qlt in *. cbn [Qnum Qden] in *.
  unfold binade. cbn [Qnum Qden].
  assert (Hn : 0 < n) by lia.
  assert (Hnd : n < 4 * Z.pos d) by lia.
  pose proof (Z.log2_spec n Hn) as [Hn1 Hn2].
  pose proof (Z.log2_spec (Z.pos d) (Pos2Z.is_pos d)) as [Hd1 Hd2].
  set (a := Z.log2 n) in *. set (b := Z.log2 (Z.pos d)) in *.
  assert (Ha : 0 <= a) by apply Z.log2_nonneg.
  assert (Hb : 0 <= b) by apply Z.log2_nonneg.
  assert (Hc : a - b <= 2).
  { assert (Hpow : 2 ^ a < 2 ^ (b + 3)).
    { replace (2 ^ (b + 3)) with (4 * 2 ^ Z.succ b).
      - lia.
      - rewrite Z.pow_add_r by lia. rewrite Z.pow_succ_r by lia. lia. }
    apply Z.pow_lt_mono_r_iff in Hpow; lia. }
  destruct (0 <=? a - b) eqn:E.
  - destruct (2 ^ (a - b) * Z.pos d <=? n) eqn:T; [| lia].
    apply Z.leb_le in T. apply Z.leb_le in E.
    destruct (Z.le_gt_cases (a - b) 1) as [| Hgt]; [assumption |].
    assert (H4 : 2 ^ 2 <= 2 ^ (a - b)) by (apply Z.pow_le_mono_r; lia).
    change (2 ^ 2) with 4 in H4. nia.
  - apply Z.leb_gt in E. destruct (Z.pos d <=? n * 2 ^ (- (a - b))); lia.
Qed.

Lemma roundHalfEven_bounds (y : Q) :
  Qfloor y <= roundHalfEven y
  /\ (inject_Z (roundHalfEven y) <= y + (1 # 2))%Q.
Proof.
  unfold roundHalfEven.
  pose proof (Qfloor_le y) as Hlo. pose proof (Qlt_floor y) as Hhi.
  rewrite inject_Z_plus in Hhi. change (inject_Z 1) with 1%Q in Hhi.
  destruct (y - inject_Z (Qfloor y) ?= 1 # 2)%Q eqn:E.
  - apply Qeq_alt in E.
    destruct (Z.even (Qfloor y)); split; try lia;
      rewrite ?inject_Z_plus; change (inject_Z 1) with 1%Q; lra.
  - apply Qlt_alt in E. split; [lia | lra].
  - apply Qgt_alt in E. split; [lia |].
    rewrite inject_Z_plus. change (inject_Z 1) with 1%Q. lra.
Qed.

(** Below 4 a double is within 2^-52 of the number it rounds, and
    rounding does not cross an integer from above. *)
Lemma roundPositive_bounds (x : Q) :
  (0 < x)%Q -> (x < 4)%Q ->
  (roundPositive x <= x + (1 # 4503599627370496))%Q
  /\ forall k : Z, (inject_Z k <= x)%Q -> (inject_Z k <= roundPositive x)%Q.
Proof.
  intros Hpos Hlt.
  pose proof (binade_le x Hpos Hlt) as He.
  unfold roundPositive, ulpExponent.
  set (q := Z.max (binade x - 52) (-1074)).
  assert (Hq : q <= -51) by (unfold q; lia).
  replace (q <? 0) with true by (symmetry; apply Z.ltb_lt; lia).
  set (s := 2 ^ (- q)).
  assert (Hs : 2 ^ 51 <= s) by (unfold s; apply Z.pow_le_mono_r; lia).
  assert (HS : (inject_Z (2 ^ 51) <= inject_Z s)%Q) by (rewrite <- Zle_Qle; exact Hs).
  assert (HS0 : (0 < inject_Z s)%Q).
  { change 0%Q with (inject_Z 0). rewrite <- Zlt_Qlt. lia. }
  destruct (roundHalfEven_bounds (x * inject_Z s)) as [Hfl Hup].
  split.
  - apply Qle_shift_div_r; [exact HS0 |].
    change (inject_Z (2 ^ 51)) with (2251799813685248 # 1)%Q in HS.
    nra.
  - intros k Hk. apply Qle_shift_div_l; [exact HS0 |].
    rewrite <- inject_Z_mult. rewrite <- Zle_Qle.
    apply Z.le_trans with (Qfloor (x * inject_Z s)); [| exact Hfl].
    rewrite <- (Qfloor_Z (k * s)). apply Qfloor_resp_le.
    rewrite inject_Z_mult. apply Qmult_le_compat_r; [exact Hk | now apply Qlt_le_weak].
Qed.

Lemma roundToDouble_bounds (x : Q) :
  (0 <= x)%Q -> (x < 4)%Q ->
  (roundToDouble x <= x + (1 # 4503599627370496))%Q
  /\ forall k : Z, (inject_Z k <= x)%Q -> (inject_Z k <= roundToDouble x)%Q.
Proof.
  intros Hnn Hlt. unfold roundToDouble.
  destruct (x ?= 0)%Q eqn:E.
  - apply Qeq_alt in E. split; [lra | intros k Hk; lra].
  - apply Qlt_alt in E. lra.
  - apply Qgt_alt in E. now apply roundPositive_bounds.
Qed.

Lemma tripleDraw_range :
  (0 <= draw (random env) * inject_Z (Z.of_nat (List.length sampleSermons)))%Q
  /\ (draw (random env) * inject_Z (Z.of_nat (List.length sampleSermons))
      <= 27021597764222973 # 9007199254740992)%Q.
Proof.
  destruct (random env) as [u [Hlo Hhi]]. cbn [draw].
  change (inject_Z (Z.of_nat (List.length sampleSermons))) with (3 # 1)%Q.
  unfold maxDraw in Hhi. split; lra.
Qed.

Lemma randomIndex_range : 0 <= randomIndex env < 3.
Proof.
  unfold randomIndex. destruct tripleDraw_range as [Hlo Hhi].
  set (x := (draw (random env) * inject_Z (Z.of_nat (List.length sampleSermons)))%Q) in *.
  destruct (roundToDouble_bounds x Hlo ltac:(lra)) as [Hup Hdown].
  split.
  - change 0 with (Qfloor 0). apply Qfloor_resp_le. apply (Hdown 0). exact Hlo.
  - assert (H : (inject_Z (Qfloor (roundToDouble x)) < inject_Z 3)%Q).
    { eapply Qle_lt_trans; [apply Qfloor_le |].
      change (inject_Z 3) with (3 # 1)%Q. lra. }
    now rewrite <- Zlt_Qlt in H.
Qed.

(** The index [i] is the integer part of three times the draw, up to
    the rounding of the product: [i - 2^-52 <= 3u < i + 1]. *)
Lemma randomIndex_bounds :
  (inject_Z (randomIndex env) - (1 # 4503599627370496)
   <= draw (random env) * inject_Z 3)%Q
  /\ (draw (random env) * inject_Z 3 < inject_Z (randomIndex env + 1))%Q.
Proof.
  unfold randomIndex. destruct tripleDraw_range as [Hlo Hhi].
  change (inject_Z (Z.of_nat (List.length sampleSermons))) with (inject_Z 3) in *.
  set (x := (draw (random env) * inject_Z 3)%Q) in *.
  destruct (roundToDouble_bounds x Hlo ltac:(lra)) as [Hup Hdown].
  pose proof (Qfloor_le (roundToDouble x)) as Hfl.
  split; [lra |].
  destruct (Qlt_le_dec x (inject_Z (Qfloor (roundToDouble x) + 1))) as [| Hge];
    [assumption | exfalso].
  apply Hdown in Hge.
  pose proof (Qlt_floor (roundToDouble x)) as Hlt. lra.
Qed.

Lemma arrayGet_sampleSermons :
  exists entry, arrayGet sampleSermons (randomIndex env) = Some entry
                /\ In entry sampleSermons.
Proof.
  pose proof randomIndex_range as H.
  assert (Hc : randomIndex env = 0 \/ randomIndex env = 1 \/ randomIndex env = 2) by lia.
  destruct Hc as [-> | [-> | ->]]; eexists; (split; [reflexivity |]); simpl; auto.
Qed.

Lemma arrayGet_nth {A} (l : list A) (i : Z) (x d : A) :
  arrayGet l i = Some x -> x = nth (Z.to_nat i) l d.
Proof.
  unfold arrayGet. destruct (i <? 0); [discriminate |].
  intros H. symmetry. now apply nth_error_nth.
Qed.

End RandomIndex.

(** ** The request loop *)

Section Loop.

Variable env : Env.
Variable purpose0 : string.

Lemma attemptOnce_eq (t : Trace) :
  attemptOnce env purpose0 t
  = (handleOutcome purpose0 (network env (attempts t)), (t ++ [fetchEvent purpose0])%list).
Proof. reflexivity. Qed.

Lemma handleOutcome_settles (o : FetchOutcome) :
  handleOutcome purpose0 o <> OutOfFuel.
Proof.
  destruct o as [e | r]; simpl; [discriminate |].
  destruct (negb (ok r)).
  - destruct (isAuthResponse r); discriminate.
  - destruct (bodyJson r); discriminate.
Qed.

(** One iteration of the [while] loop. *)
Lemma retryLoop_step (fuel : nat) (retryCount : Z) (lastError : option string) (t : Trace) :
  retryCount <= maxRetries ->
  retryLoop (S fuel) env purpose0 retryCount lastError t
  = match handleOutcome purpose0 (network env (attempts t)) with
    | Normal s => (Normal s, (t ++ [fetchEvent purpose0])%list)
    | Throw e =>
        if isAuthMessage (toError e) then
          (Throw (ThrownError (toError e)), (t ++ [fetchEvent purpose0])%list)
        else if isNetworkError (toError e) && (retryCount <? maxRetries) then
          retryLoop fuel env purpose0 (retryCount + 1) (Some (toError e))
            ((t ++ [fetchEvent purpose0]) ++ [EvWait (1000 * 2 ^ (retryCount + 1))])%list
        else (Throw (ThrownError (toError e)), (t ++ [fetchEvent purpose0])%list)
    | OutOfFuel => (OutOfFuel, (t ++ [fetchEvent purpose0])%list)
    end.
Proof.
  intros Hle. cbn [retryLoop].
  apply Z.leb_le in Hle. rewrite Hle.
  unfold tryCatch. rewrite attemptOnce_eq.
  destruct (handleOutcome purpose0 (network env (attempts t))) as [s | e |]; try reflexivity.
  destruct (isAuthMessage (toError e)); [reflexivity |].
  destruct (isNetworkError (toError e) && (retryCount <? maxRetries)); reflexivity.
Qed.

(** While the loop runs, [lastError] is never read. *)
Lemma retryLoop_lastError (fuel : nat) (retryCount : Z) (lastError : option string) (t : Trace) :
  retryCount <= maxRetries ->
  retryLoop fuel env purpose0 retryCount lastError t
  = retryLoop fuel env purpose0 retryCount None t.
Proof.
  intros Hle. destruct fuel as [| fuel]; [reflexivity |].
  now rewrite !retryLoop_step.
Qed.

(** [k] retried attempts in a row. *)
Lemma retryLoop_skip (k : nat) :
  forall (j fuel : nat) (t : Trace),
    attempts t = j ->
    (j + k <= 2)%nat ->
    (forall i, (j <= i < j + k)%nat -> retried purpose0 (network env i) = true) ->
    retryLoop (k + fuel) env purpose0 (Z.of_nat j) None t
    = retryLoop fuel env purpose0 (Z.of_nat (j + k)) None (t ++ retries purpose0 j k)%list.
Proof.
  induction k as [| k IH]; intros j fuel t Ht Hjk Hall.
  - unfold retries. simpl. now rewrite Nat.add_0_r, app_nil_r.
  - change (S k + fuel)%nat with (S (k + fuel)).
    rewrite retryLoop_step by (unfold maxRetries; lia).
    rewrite Ht.
    pose proof (Hall j ltac:(lia)) as Hj. unfold retried in Hj.
    destruct (handleOutcome purpose0 (network env j)) as [s | e |]; try discriminate.
    apply andb_prop in Hj. destruct Hj as [Hauth Hnet].
    apply negb_true_iff in Hauth. rewrite Hauth, Hnet.
    replace (Z.of_nat j <? maxRetries) with true
      by (symmetry; apply Z.ltb_lt; unfold maxRetries; lia).
    cbn [andb].
    rewrite retryLoop_lastError by (unfold maxRetries; lia).
    replace (Z.of_nat j + 1) with (Z.of_nat (S j)) by lia.
    rewrite IH.
    + replace (S j + k)%nat with (j + S k)%nat by lia.
      f_equal. unfold retries. cbn [seq map List.concat].
      rewrite <- !app_assoc. f_equal. cbn [app]. f_equal. f_equal.
      unfold backoff. f_equal. f_equal. lia.
    + rewrite !attempts_app, Ht. cbn. lia.
    + lia.
    + intros i Hi. apply Hall. lia.
Qed.

(** The attempt after which the loop stops. *)
Lemma retryLoop_last (j fuel : nat) (t : Trace) :
  attempts t = j ->
  (j <= 2)%nat ->
  retried purpose0 (network env j) = false \/ j = 2%nat ->
  retryLoop (S fuel) env purpose0 (Z.of_nat j) None t
  = (match handleOutcome purpose0 (network env j) with
     | Normal s => Normal s
     | Throw e => Throw (ThrownError (toError e))
     | OutOfFuel => OutOfFuel
     end, (t ++ [fetchEvent purpose0])%list).
Proof.
  intros Ht Hj Hstop.
  rewrite retryLoop_step by (unfold maxRetries; lia).
  rewrite Ht. unfold retried in Hstop.
  destruct (handleOutcome purpose0 (network env j)) as [s | e |]; try reflexivity.
  destruct (isAuthMessage (toError e)) eqn:Hauth; [reflexivity |].
  destruct Hstop as [Hstop | ->].
  - cbn [negb andb] in Hstop. rewrite Hstop. reflexivity.
  - rewrite andb_false_r. reflexivity.
Qed.

End Loop.

(** ** Whole runs *)

Section Run.

Variable env : Env.
Variable purpose0 : string.

Lemma attempts_retries (j k : nat) : attempts (retries purpose0 j k) = k.
Proof.
  revert j. induction k as [| k IH]; intros j; [reflexivity |].
  unfold retries in *. cbn [seq map List.concat].
  rewrite attempts_app, IH. reflexivity.
Qed.

Lemma waits_retries (j k : nat) : waits (retries purpose0 j k) = map backoff (seq j k).
Proof.
  revert j. induction k as [| k IH]; intros j; [reflexivity |].
  unfold retries in *. cbn [seq map List.concat].
  rewrite waits_app, IH. reflexivity.
Qed.

Lemma attempts_runTrace (k : nat) : attempts (runTrace purpose0 k) = S k.
Proof.
  unfold runTrace. rewrite attempts_app, attempts_retries. cbn. lia.
Qed.

Lemma waits_runTrace (k : nat) : waits (runTrace purpose0 k) = map backoff (seq 0 k).
Proof.
  unfold runTrace. rewrite waits_app, waits_retries. cbn. now rewrite app_nil_r.
Qed.

Lemma toasts_runTrace (k : nat) : forallb (fun e => negb (isToast e)) (runTrace purpose0 k) = true.
Proof.
  unfold runTrace, retries. rewrite forallb_app. cbn [forallb fetchEvent isToast negb andb].
  rewrite andb_true_r. generalize 0%nat.
  induction k as [| k IH]; intros j; [reflexivity |].
  cbn [seq map List.concat]. rewrite forallb_app, IH. reflexivity.
Qed.

(** Some attempt among the first three is the last one. *)
Lemma last_attempt_exists :
  exists k, (k <= 2)%nat
            /\ (forall i, (i < k)%nat -> retried purpose0 (network env i) = true)
            /\ (retried purpose0 (network env k) = false \/ k = 2%nat).
Proof.
  destruct (retried purpose0 (network env 0)) eqn:H0.
  - destruct (retried purpose0 (network env 1)) eqn:H1.
    + exists 2%nat. repeat split; auto.
      intros i Hi. assert (Hc : i = 0%nat \/ i = 1%nat) by lia.
      destruct Hc as [-> | ->]; assumption.
    + exists 1%nat. repeat split; auto.
      intros i Hi. assert (Hc : i = 0%nat) by lia. now subst i.
  - exists 0%nat. repeat split; auto. intros i Hi. lia.
Qed.

Lemma tryBody_offline (fuel : nat) :
  isOnline env = false ->
  tryBody fuel env purpose0 [] = (Throw (ThrownError "network_offline"), []).
Proof.
  intros Hoff. unfold tryBody. now rewrite Hoff.
Qed.

(** Online, the loop stops with attempt [k]: what the outer [try] body
    yields, and its trace. *)
Lemma tryBody_online (k fuel : nat) :
  isOnline env = true ->
  (k <= 2)%nat ->
  (forall i, (i < k)%nat -> retried purpose0 (network env i) = true) ->
  retried purpose0 (network env k) = false \/ k = 2%nat ->
  tryBody (k + S fuel) env purpose0 []
  = (match handleOutcome purpose0 (network env k) with
     | Normal s => Normal s
     | Throw e => Throw (ThrownError (toError e))
     | OutOfFuel => OutOfFuel
     end, runTrace purpose0 k).
Proof.
  intros Hon Hk Hall Hstop. unfold tryBody. rewrite Hon. cbn [negb].
  change 0 with (Z.of_nat 0).
  rewrite retryLoop_skip by (auto; intros i Hi; apply Hall; lia).
  cbn [Nat.add app].
  now rewrite retryLoop_last by (auto using attempts_retries).
Qed.

(** The outer [catch] always finds a table entry. *)
Lemma onFailure_eq (error : Thrown) (t : Trace) :
  exists entry,
    arrayGet sampleSermons (randomIndex env) = Some entry
    /\ In entry sampleSermons
    /\ onFailure env purpose0 error t
       = (Normal (fallbackFrom env entry purpose0 (fst (classify error))),
          (t ++ [errorToast (fst (classify error)) (snd (classify error));
                 EvToastWarning "Using sample sermon data as fallback"
                   "Real sermon generation is unavailable at the moment."])%list).
Proof.
  destruct (arrayGet_sampleSermons env) as [entry [Hget Hin]].
  exists entry. repeat split; auto.
  unfold onFailure. destruct (classify error) as [kind msg]. cbn [fst snd].
  unfold bind, emit, ret. rewrite Hget. now rewrite <- app_assoc.
Qed.

(** The fuel [generateKhutba] gives the loop is enough, and more changes
    nothing. *)
Lemma generateKhutbaWith_fuel (fuel : nat) :
  (3 <= fuel)%nat ->
  generateKhutbaWith fuel env purpose0 = generateKhutba env purpose0
  /\ fst (generateKhutba env purpose0) <> OutOfFuel.
Proof.
  intros Hfuel. unfold generateKhutba, generateKhutbaWith, tryCatch.
  change (S (Z.to_nat maxRetries)) with 3%nat.
  destruct (isOnline env) eqn:Hon.
  - destruct last_attempt_exists as [k [Hk [Hall Hstop]]].
    pose proof (tryBody_online k (fuel - k - 1) Hon Hk Hall Hstop) as E1.
    pose proof (tryBody_online k (2 - k) Hon Hk Hall Hstop) as E2.
    replace (k + S (fuel - k - 1))%nat with fuel in E1 by lia.
    replace (k + S (2 - k))%nat with 3%nat in E2 by lia.
    rewrite E1, E2.
    pose proof (handleOutcome_settles purpose0 (network env k)) as Hs.
    destruct (handleOutcome purpose0 (network env k)) as [s | e |];
      [split; [reflexivity | discriminate] | | congruence].
    destruct (onFailure_eq (ThrownError (toError e)) (runTrace purpose0 k))
      as [entry [_ [_ ->]]].
    split; [reflexivity | discriminate].
  - rewrite !tryBody_offline by assumption.
    destruct (onFailure_eq (ThrownError "network_offline") []) as [entry [_ [_ ->]]].
    split; [reflexivity | discriminate].
Qed.

(** Online run whose last attempt is [k]. *)
Lemma generateKhutba_online (k : nat) :
  isOnline env = true ->
  (k <= 2)%nat ->
  (forall i, (i < k)%nat -> retried purpose0 (network env i) = true) ->
  retried purpose0 (network env k) = false \/ k = 2%nat ->
  generateKhutba env purpose0
  = match handleOutcome purpose0 (network env k) with
    | Normal s => (Normal s, runTrace purpose0 k)
    | Throw e => onFailure env purpose0 (ThrownError (toError e)) (runTrace purpose0 k)
    | OutOfFuel => (OutOfFuel, runTrace purpose0 k)
    end.
Proof.
  intros Hon Hk Hall Hstop. unfold generateKhutba, generateKhutbaWith, tryCatch.
  change (S (Z.to_nat maxRetries)) with 3%nat.
  replace 3%nat with (k + S (2 - k))%nat by lia.
  rewrite tryBody_online by assumption.
  destruct (handleOutcome purpose0 (network env k)); reflexivity.
Qed.

Lemma generateKhutba_offline :
  isOnline env = false ->
  generateKhutba env purpose0 = onFailure env purpose0 (ThrownError "network_offline") [].
Proof.
  intros Hoff. unfold generateKhutba, generateKhutbaWith, tryCatch.
  now rewrite tryBody_offline.
Qed.

End Run.

(** ** Successful and failed attempts *)

Section Attempts.

Variable env : Env.
Variable purpose0 : string.

Lemma handleOutcome_ok (r : Response) (data : Sermon) :
  ok r = true ->
  bodyJson r = JsonValue data ->
  handleOutcome purpose0 (FetchResolves r) = Normal (withFullAudioUrl purpose0 data).
Proof.
  intros Hok Hjson. cbn [handleOutcome]. now rewrite Hok, Hjson.
Qed.

(** The run that ends with an answered attempt [k]. *)
Lemma generateKhutba_success (k : nat) (r : Response) (data : Sermon) :
  isOnline env = true ->
  (k <= 2)%nat ->
  (forall i, (i < k)%nat -> retried purpose0 (network env i) = true) ->
  network env k = FetchResolves r ->
  ok r = true ->
  bodyJson r = JsonValue data ->
  generateKhutba env purpose0 = (Normal (withFullAudioUrl purpose0 data), runTrace purpose0 k).
Proof.
  intros Hon Hk Hall Hnet Hok Hjson.
  pose proof (handleOutcome_ok r data Hok Hjson) as Hout.
  rewrite (generateKhutba_online env purpose0 k Hon Hk Hall).
  - now rewrite Hnet, Hout.
  - left. unfold retried. now rewrite Hnet, Hout.
Qed.

(** The run that ends with a failed attempt [k]. *)
Lemma generateKhutba_failure (k : nat) (e : Thrown) :
  isOnline env = true ->
  (k <= 2)%nat ->
  (forall i, (i < k)%nat -> retried purpose0 (network env i) = true) ->
  retried purpose0 (network env k) = false \/ k = 2%nat ->
  handleOutcome purpose0 (network env k) = Throw e ->
  exists entry,
    arrayGet sampleSermons (randomIndex env) = Some entry
    /\ In entry sampleSermons
    /\ generateKhutba env purpose0
       = (Normal (fallbackFrom env entry purpose0 (fst (classify (ThrownError (toError e))))),
          (runTrace purpose0 k
           ++ [errorToast (fst (classify (ThrownError (toError e))))
                 (snd (classify (ThrownError (toError e))));
               EvToastWarning "Using sample sermon data as fallback"
                 "Real sermon generation is unavailable at the moment."])%list).
Proof.
  intros Hon Hk Hall Hstop Hout.
  rewrite (generateKhutba_online env purpose0 k Hon Hk Hall Hstop), Hout.
  apply onFailure_eq.
Qed.

Lemma withFullAudioUrl_full (data : Sermon) :
  fullAudioUrl (withFullAudioUrl purpose0 data)
  = Some match audio_url data with
         | Some u => if truthy u then resolvedUrl u else ""
         | None => ""
         end.
Proof. reflexivity. Qed.

Lemma resolvedUrl_absolute (u : string) : isAbsolute (resolvedUrl u) = true.
Proof.
  unfold isAbsolute, resolvedUrl.
  destruct (startsWith u "http") eqn:H; [assumption | apply startsWith_base].
Qed.

End Attempts.

(** * Specified behaviour *)

(** C1: for every purpose and every behaviour of the environment the
    promise of [generateKhutba] resolves to a Sermon: it never rejects and
    the loop never runs out of fuel. Offline, no request is made and the
    Sermon has [errorType] [Network]. Online, between one and three
    requests are made, and the outcome of the last one decides: a rejected
    [fetch], a status outside 200..299 or a body that does not decode
    gives a Sermon whose [errorType] is set, to the class of that error;
    only a 2xx response with a body that decodes gives that body back. *)
Theorem generateKhutba_always_resolves (env : Env) (purpose0 : string) :
  exists s t,
    generateKhutba env purpose0 = (Normal s, t)
    /\ if isOnline env
       then exists k,
              (k <= 2)%nat
              /\ attempts t = S k
              /\ match network env k with
                 | FetchRejects e =>
                     errorType s = Some (fst (classify (ThrownError (toError e))))
                 | FetchResolves r =>
                     if ok r then
                       match bodyJson r with
                       | JsonRejects e =>
                           errorType s = Some (fst (classify (ThrownError (toError e))))
                       | JsonValue data => s = withFullAudioUrl purpose0 data
                       end
                     else
                       errorType s
                       = Some (if isAuthResponse r then Auth
                               else fst (classify (ThrownError (serverErrorMessage r))))
                 end
       else attempts t = 0%nat /\ errorType s = Some Network.
Proof.
  destruct (isOnline env) eqn:Hon.
  - destruct (last_attempt_exists env purpose0) as [k [Hk [Hall Hstop]]].
    pose proof (generateKhutba_online env purpose0 k Hon Hk Hall Hstop) as Hrun.
    assert (Hfail : forall e,
               handleOutcome purpose0 (network env k) = Throw e ->
               exists s t,
                 generateKhutba env purpose0 = (Normal s, t)
                 /\ attempts t = S k
                 /\ errorType s = Some (fst (classify (ThrownError (toError e))))).
    { intros e Hout.
      destruct (generateKhutba_failure env purpose0 k e Hon Hk Hall Hstop Hout)
        as [entry [_ [_ Hfb]]].
      eexists; eexists. split; [exact Hfb |].
      split; [| reflexivity].
      rewrite attempts_app, attempts_runTrace.
      destruct (fst (classify (ThrownError (toError e)))); cbn; lia. }
    destruct (network env k) as [e | r] eqn:Hnet.
    + destruct (Hfail e eq_refl) as [s [t [Hs [Ha He]]]].
      exists s, t. split; [exact Hs |]. exists k. rewrite Hnet.
      repeat split; assumption.
    + cbn [handleOutcome] in Hrun, Hfail.
      destruct (ok r) eqn:Hok; cbn [negb] in Hrun, Hfail.
      * destruct (bodyJson r) as [e | data] eqn:Hjson.
        -- destruct (Hfail e eq_refl) as [s [t [Hs [Ha He]]]].
           exists s, t. split; [exact Hs |]. exists k. rewrite Hnet, Hok, Hjson.
           repeat split; assumption.
        -- exists (withFullAudioUrl purpose0 data), (runTrace purpose0 k).
           split; [exact Hrun |]. exists k. rewrite Hnet, Hok, Hjson.
           split; [exact Hk |]. split; [apply attempts_runTrace | reflexivity].
      * destruct (isAuthResponse r) eqn:Hauth.
        -- destruct (Hfail _ eq_refl) as [s [t [Hs [Ha He]]]].
           exists s, t. split; [exact Hs |]. exists k. rewrite Hnet, Hok, Hauth.
           repeat split; assumption.
        -- destruct (Hfail _ eq_refl) as [s [t [Hs [Ha He]]]].
           exists s, t. split; [exact Hs |]. exists k. rewrite Hnet, Hok, Hauth.
           repeat split; assumption.
  - rewrite (generateKhutba_offline env purpose0 Hon).
    destruct (onFailure_eq env purpose0 (ThrownError "network_offline") [])
      as [entry [_ [_ ->]]].
    eexists; eexists. split; [reflexivity |]. split; reflexivity.
Qed.

(** C2: when the answered attempt carries a non-empty [audio_url] [u],
    the returned Sermon keeps [u] and its [fullAudioUrl] is [u] itself if
    [u] starts with [http], and otherwise the base URL followed by [u],
    with a slash put in front of [u] exactly when [u] has none. *)
Theorem fullAudioUrl_resolution
    (env : Env) (purpose0 : string) (k : nat) (r : Response) (data : Sermon) (u : string) :
  isOnline env = true ->
  (k <= 2)%nat ->
  (forall i, (i < k)%nat -> retried purpose0 (network env i) = true) ->
  network env k = FetchResolves r ->
  ok r = true ->
  bodyJson r = JsonValue data ->
  audio_url data = Some u ->
  u <> "" ->
  exists s t,
    generateKhutba env purpose0 = (Normal s, t)
    /\ audio_url s = Some u
    /\ fullAudioUrl s
       = Some (if startsWith u "http" then u
               else API_BASE_URL ++ (if startsWith u "/" then u else "/" ++ u)).
Proof.
  intros Hon Hk Hall Hnet Hok Hjson Hurl Hne.
  exists (withFullAudioUrl purpose0 data), (runTrace purpose0 k).
  split; [now apply generateKhutba_success with (r := r) |].
  split; [exact Hurl |].
  rewrite withFullAudioUrl_full, Hurl.
  apply truthy_nonempty in Hne. now rewrite Hne.
Qed.

(** C2 at the two bodies the specification names, [foo.wav] and
    [https://x/y.wav], answered at once, and at [foo.wav] answered on the
    third attempt. *)
Lemma fullAudioUrl_resolution_witness :
  (exists s t,
     generateKhutba (constantEnv (FetchResolves (okResponse bodyRelative))) "grief" = (Normal s, t)
     /\ audio_url s = Some "foo.wav"
     /\ fullAudioUrl s = Some "https://islamicaudio.techrealm.online/foo.wav")
  /\ (exists s t,
        generateKhutba (constantEnv (FetchResolves (okResponse bodyAbsolute))) "grief" = (Normal s, t)
        /\ audio_url s = Some "https://x/y.wav"
        /\ fullAudioUrl s = Some "https://x/y.wav")
  /\ (exists s t,
        generateKhutba (flakyEnv bodyRelative) "grief" = (Normal s, t)
        /\ audio_url s = Some "foo.wav"
        /\ fullAudioUrl s = Some "https://islamicaudio.techrealm.online/foo.wav").
Proof.
  split; [| split].
  - apply (fullAudioUrl_resolution
             (constantEnv (FetchResolves (okResponse bodyRelative))) "grief" 0
             (okResponse bodyRelative) bodyRelative "foo.wav");
      try reflexivity; try lia; discriminate.
  - apply (fullAudioUrl_resolution
             (constantEnv (FetchResolves (okResponse bodyAbsolute))) "grief" 0
             (okResponse bodyAbsolute) bodyAbsolute "https://x/y.wav");
      try reflexivity; try lia; discriminate.
  - apply (fullAudioUrl_resolution (flakyEnv bodyRelative) "grief" 2
             (okResponse bodyRelative) bodyRelative "foo.wav");
      try reflexivity; try lia; try discriminate.
    intros i Hi. destruct i as [| [| i]]; [reflexivity | reflexivity | lia].
Defined.

(** C3, as the code has it: every run returns a Sermon whose
    [fullAudioUrl] is set. When the Sermon's [audio_url] is a non-empty
    string, [fullAudioUrl] is the resolved URL (the [audio_url] itself if
    it starts with [http], else the base URL put in front of the
    slash-normalized path) and starts with [http]; this covers the three
    fallback entries. When [audio_url] is empty or absent, [fullAudioUrl]
    is the empty string. *)
Theorem fullAudioUrl_shape (env : Env) (purpose0 : string) :
  exists s t full,
    generateKhutba env purpose0 = (Normal s, t)
    /\ fullAudioUrl s = Some full
    /\ match audio_url s with
       | Some u =>
           if truthy u then full = resolvedUrl u /\ isAbsolute full = true
           else full = ""
       | None => full = ""
       end.
Proof.
  assert (Hfallback : forall e t0,
             onFailure env purpose0 e t0 = generateKhutba env purpose0 ->
             exists s t full,
               generateKhutba env purpose0 = (Normal s, t)
               /\ fullAudioUrl s = Some full
               /\ match audio_url s with
                  | Some u =>
                      if truthy u then full = resolvedUrl u /\ isAbsolute full = true
                      else full = ""
                  | None => full = ""
                  end).
  { intros e t0 <-.
    destruct (onFailure_eq env purpose0 e t0) as [entry [_ [Hin ->]]].
    simpl in Hin.
    destruct Hin as [<- | [<- | [<- | []]]];
      eexists; eexists; eexists; (split; [reflexivity |]);
      (split; [reflexivity |]); split; reflexivity. }
  destruct (isOnline env) eqn:Hon.
  - destruct (last_attempt_exists env purpose0) as [k [Hk [Hall Hstop]]].
    pose proof (generateKhutba_online env purpose0 k Hon Hk Hall Hstop) as Hrun.
    pose proof (handleOutcome_settles purpose0 (network env k)) as Hs.
    destruct (handleOutcome purpose0 (network env k)) as [s | e |] eqn:Hout;
      [| now apply (Hfallback (ThrownError (toError e)) (runTrace purpose0 k)) | congruence].
    destruct (network env k) as [e | r]; [discriminate |].
    cbn [handleOutcome] in Hout.
    destruct (negb (ok r)); [destruct (isAuthResponse r); discriminate |].
    destruct (bodyJson r) as [e | data]; [discriminate |].
    injection Hout as <-.
    exists (withFullAudioUrl purpose0 data), (runTrace purpose0 k).
    eexists. split; [exact Hrun |]. split; [apply withFullAudioUrl_full |].
    cbn [audio_url withFullAudioUrl].
    destruct (audio_url data) as [u |]; [| reflexivity].
    destruct (truthy u); [| reflexivity].
    split; [reflexivity | apply resolvedUrl_absolute].
  - apply (Hfallback (ThrownError "network_offline") []).
    symmetry. now apply generateKhutba_offline.
Qed.

(** C3 does not hold as stated: a 200 response whose body has no
    [audio_url] is returned with the empty string as [fullAudioUrl], which
    is not an absolute URL. *)
Lemma fullAudioUrl_not_always_absolute :
  exists s t,
    generateKhutba (constantEnv (FetchResolves (okResponse bodyNoUrl))) "grief" = (Normal s, t)
    /\ errorType s = None
    /\ fullAudioUrl s = Some ""
    /\ isAbsolute "" = false.
Proof.
  eexists; eexists. repeat split.
Qed.

(** C4: online, if the first response has status 401, or is a non-success
    response whose body contains, in any letter case, [unauthenticated],
    [authentication token] or [auth], then exactly one request is made,
    nothing is waited for, and the fallback Sermon returned has
    [errorType] [Auth]. *)
Theorem auth_failure_is_not_retried (env : Env) (purpose0 : string) (r : Response) :
  isOnline env = true ->
  network env 0 = FetchResolves r ->
  status r = 401
  \/ (ok r = false
      /\ (includes (toLowerCase (bodyText r)) "unauthenticated" = true
          \/ includes (toLowerCase (bodyText r)) "authentication token" = true
          \/ includes (toLowerCase (bodyText r)) "auth" = true)) ->
  exists entry s t,
    In entry sampleSermons
    /\ generateKhutba env purpose0 = (Normal s, t)
    /\ s = fallbackFrom env entry purpose0 Auth
    /\ errorType s = Some Auth
    /\ attempts t = 1%nat
    /\ waits t = [].
Proof.
  intros Hon Hnet Hauth.
  assert (Hout : handleOutcome purpose0 (network env 0)
                 = Throw (ThrownError "authentication_required")).
  { rewrite Hnet. cbn [handleOutcome].
    assert (Hnok : ok r = false).
    { destruct Hauth as [H401 | [Hnok _]]; [| exact Hnok].
      unfold ok. rewrite H401. reflexivity. }
    rewrite Hnok. cbn [negb].
    assert (Hyes : isAuthResponse r = true).
    { unfold isAuthResponse.
      destruct Hauth as [H401 | [_ [H | [H | H]]]].
      - rewrite H401. reflexivity.
      - rewrite H, (includes_lower_truthy (bodyText r) "unauthenticated") by (discriminate || exact H).
        cbn [andb]. now rewrite !orb_true_r.
      - rewrite H, (includes_lower_truthy (bodyText r) "authentication token") by (discriminate || exact H).
        cbn [andb]. now rewrite !orb_true_r.
      - rewrite H, (includes_lower_truthy (bodyText r) "auth") by (discriminate || exact H).
        cbn [andb]. now rewrite !orb_true_r. }
    now rewrite Hyes. }
  assert (Hstop : retried purpose0 (network env 0) = false \/ 0%nat = 2%nat).
  { left. unfold retried. now rewrite Hout. }
  assert (Hall : forall i, (i < 0)%nat -> retried purpose0 (network env i) = true)
    by (intros i Hi; lia).
  destruct (generateKhutba_failure env purpose0 0 _ Hon (Nat.le_0_l 2) Hall Hstop Hout)
    as [entry [_ [Hin Hrun]]].
  exists entry. eexists; eexists.
  split; [exact Hin |]. split; [exact Hrun |].
  repeat split.
Qed.

(** C4 at a 401 response with an empty body. *)
Lemma auth_failure_is_not_retried_witness :
  exists entry s t,
    In entry sampleSermons
    /\ generateKhutba (constantEnv (FetchResolves (errorResponse 401 "Unauthorized" ""))) "grief"
       = (Normal s, t)
    /\ s = fallbackFrom
             (constantEnv (FetchResolves (errorResponse 401 "Unauthorized" "")))
             entry "grief" Auth
    /\ errorType s = Some Auth
    /\ attempts t = 1%nat
    /\ waits t = [].
Proof.
  apply (auth_failure_is_not_retried
           (constantEnv (FetchResolves (errorResponse 401 "Unauthorized" ""))) "grief"
           (errorResponse 401 "Unauthorized" "")).
  - reflexivity.
  - reflexivity.
  - left. reflexivity.
Defined.

(** C5, as the code has it: online, a first response with a non-success
    status that is not taken for an authentication failure is thrown with
    the message [Server responded with <status>: <statusText>. <body>].
    The request is issued again, after a wait of 2000 ms, only when that
    message holds a network marker and no authentication marker.
    Otherwise, as for a plain 500 with a generic body, the loop ends with
    this one attempt and the fallback Sermon is returned, its [errorType]
    the class of the message. *)
Theorem http_failure_retry_rule (env : Env) (purpose0 : string) (r : Response) :
  isOnline env = true ->
  network env 0 = FetchResolves r ->
  ok r = false ->
  isAuthResponse r = false ->
  exists s t,
    generateKhutba env purpose0 = (Normal s, t)
    /\ if negb (isAuthMessage (serverErrorMessage r)) && isNetworkError (serverErrorMessage r)
       then (2 <= attempts t)%nat /\ hd_error (waits t) = Some 2000
       else attempts t = 1%nat
            /\ waits t = []
            /\ errorType s = Some (fst (classify (ThrownError (serverErrorMessage r)))).
Proof.
  intros Hon Hnet Hnok Hnauth.
  assert (Hout : handleOutcome purpose0 (network env 0)
                 = Throw (ThrownError (serverErrorMessage r))).
  { rewrite Hnet. cbn [handleOutcome]. now rewrite Hnok, Hnauth. }
  assert (Hret : retried purpose0 (network env 0)
                 = negb (isAuthMessage (serverErrorMessage r))
                   && isNetworkError (serverErrorMessage r)).
  { unfold retried. now rewrite Hout. }
  destruct (negb (isAuthMessage (serverErrorMessage r))
            && isNetworkError (serverErrorMessage r)) eqn:Hcls.
  - destruct (last_attempt_exists env purpose0) as [k [Hk [Hall Hstop]]].
    assert (Hk1 : (1 <= k)%nat).
    { destruct k; [| lia]. destruct Hstop as [Hstop | Hstop]; [congruence | lia]. }
    rewrite (generateKhutba_online env purpose0 k Hon Hk Hall Hstop).
    pose proof (handleOutcome_settles purpose0 (network env k)) as Hs.
    assert (Hhd : hd_error (map backoff (seq 0 k)) = Some 2000)
      by (destruct k; [lia | reflexivity]).
    destruct (handleOutcome purpose0 (network env k)) as [s | e |]; [| | congruence].
    + exists s, (runTrace purpose0 k). split; [reflexivity |].
      rewrite attempts_runTrace, waits_runTrace. split; [lia | exact Hhd].
    + destruct (onFailure_eq env purpose0 (ThrownError (toError e)) (runTrace purpose0 k))
        as [entry [_ [_ ->]]].
      eexists; eexists. split; [reflexivity |].
      quiet_toasts.
      rewrite attempts_runTrace, waits_runTrace. split; [lia | exact Hhd].
  - assert (Hall : forall i, (i < 0)%nat -> retried purpose0 (network env i) = true)
      by (intros i Hi; lia).
    destruct (generateKhutba_failure env purpose0 0 _ Hon (Nat.le_0_l 2)
                Hall (or_introl Hret) Hout)
      as [entry [_ [_ Hrun]]].
    eexists; eexists. split; [exact Hrun |].
    quiet_toasts.
    rewrite attempts_runTrace, waits_runTrace. repeat split.
Qed.

(** C5 at a plain 500 with a generic body (one attempt, class [Server]),
    and at a 502 whose body mentions the network (the request is issued
    again). *)
Lemma http_failure_retry_rule_witness :
  (exists s t,
     generateKhutba (constantEnv (FetchResolves (errorResponse 500 "Internal Server Error" "oops")))
       "grief" = (Normal s, t)
     /\ attempts t = 1%nat
     /\ waits t = []
     /\ errorType s = Some Server)
  /\ (exists s t,
        generateKhutba (constantEnv (FetchResolves (errorResponse 502 "Bad Gateway" "upstream network unreachable")))
          "grief" = (Normal s, t)
        /\ (2 <= attempts t)%nat /\ hd_error (waits t) = Some 2000).
Proof.
  split.
  - apply (http_failure_retry_rule
             (constantEnv (FetchResolves (errorResponse 500 "Internal Server Error" "oops")))
             "grief" (errorResponse 500 "Internal Server Error" "oops"));
      reflexivity.
  - apply (http_failure_retry_rule
             (constantEnv (FetchResolves (errorResponse 502 "Bad Gateway" "upstream network unreachable")))
             "grief" (errorResponse 502 "Bad Gateway" "upstream network unreachable"));
      reflexivity.
Defined.

(** C5 does not hold as stated: a 500 response with the body [oops] is
    not an authentication failure and two attempts remain, yet the request
    is made once only and the fallback Sermon comes back at once. *)
Lemma generic_500_is_not_retried :
  exists s t,
    generateKhutba (constantEnv (FetchResolves (errorResponse 500 "Internal Server Error" "oops")))
      "grief" = (Normal s, t)
    /\ isAuthResponse (errorResponse 500 "Internal Server Error" "oops") = false
    /\ attempts t = 1%nat
    /\ waits t = []
    /\ errorType s = Some Server.
Proof.
  eexists; eexists. repeat split.
Qed.

(** C6, as the code has it: [retryCount] is incremented before the wait
    is computed, so the wait before retry number [n] ([n] from 0) is
    [1000 * 2 ^ (n + 1)] ms. In every run at most 3 requests are made,
    each request after the first is preceded by one wait, and the waits
    are, in order, 2000 ms and 4000 ms. *)
Theorem backoff_schedule (env : Env) (purpose0 : string) :
  exists s t,
    generateKhutba env purpose0 = (Normal s, t)
    /\ (attempts t <= 3)%nat
    /\ waits t = map (fun n => 1000 * 2 ^ (Z.of_nat n + 1)) (seq 0 (attempts t - 1))
    /\ waits t = firstn (attempts t - 1) [2000; 4000].
Proof.
  assert (Hsched : forall k, (k <= 2)%nat ->
             (S k <= 3)%nat
             /\ map backoff (seq 0 k)
                = map (fun n => 1000 * 2 ^ (Z.of_nat n + 1)) (seq 0 (S k - 1))
             /\ map backoff (seq 0 k) = firstn (S k - 1) [2000; 4000]).
  { intros k Hk. assert (Hc : k = 0%nat \/ k = 1%nat \/ k = 2%nat) by lia.
    destruct Hc as [-> | [-> | ->]]; repeat split; lia. }
  destruct (isOnline env) eqn:Hon.
  - destruct (last_attempt_exists env purpose0) as [k [Hk [Hall Hstop]]].
    rewrite (generateKhutba_online env purpose0 k Hon Hk Hall Hstop).
    pose proof (handleOutcome_settles purpose0 (network env k)) as Hs.
    destruct (handleOutcome purpose0 (network env k)) as [s | e |]; [| | congruence].
    + exists s, (runTrace purpose0 k). split; [reflexivity |].
      rewrite attempts_runTrace, waits_runTrace. now apply Hsched.
    + destruct (onFailure_eq env purpose0 (ThrownError (toError e)) (runTrace purpose0 k))
        as [entry [_ [_ ->]]].
      eexists; eexists. split; [reflexivity |].
      quiet_toasts.
      rewrite attempts_runTrace, waits_runTrace. now apply Hsched.
  - rewrite (generateKhutba_offline env purpose0 Hon).
    destruct (onFailure_eq env purpose0 (ThrownError "network_offline") [])
      as [entry [_ [_ ->]]].
    eexists; eexists. split; [reflexivity |]. repeat split. cbn. lia.
Qed.

(** C6 does not hold as stated: when every request fails with
    [Failed to fetch], the first retry comes after 2000 ms, not 1000 ms,
    and the second after 4000 ms, not 2000 ms. *)
Lemma first_wait_is_two_seconds :
  nth_error (waits (snd (generateKhutba (constantEnv (FetchRejects (ThrownError "Failed to fetch"))) "grief"))) 0
  = Some 2000
  /\ nth_error (waits (snd (generateKhutba (constantEnv (FetchRejects (ThrownError "Failed to fetch"))) "grief"))) 1
     = Some 4000
  /\ 2000 <> 1000 * 2 ^ 0
  /\ 4000 <> 1000 * 2 ^ 1.
Proof.
  repeat split; discriminate.
Qed.

(** C7: if the connectivity probe reports offline, no request is made and
    the Sermon returned is built from the entry of the fallback table at
    the random index: its [errorType] is [Network] and its title is the
    entry's title, then [ - ], then the purpose with its first code unit
    replaced by the upper-case of that one-character string. The
    upper-casing is JavaScript's for every purpose: the ASCII mapping on
    an ASCII character, the Unicode mapping of the runtime on any other. *)
Theorem offline_fallback (env : Env) (purpose0 : string) :
  isOnline env = false ->
  exists entry s t,
    In entry sampleSermons
    /\ entry = nth (Z.to_nat (randomIndex env)) sampleSermons sampleSermon
    /\ generateKhutba env purpose0 = (Normal s, t)
    /\ attempts t = 0%nat
    /\ errorType s = Some Network
    /\ title s = title entry ++ " - " ++ toUpperCase env (charAt0 purpose0) ++ slice1 purpose0.
Proof.
  intros Hoff. rewrite (generateKhutba_offline env purpose0 Hoff).
  destruct (onFailure_eq env purpose0 (ThrownError "network_offline") [])
    as [entry [Hget [Hin ->]]].
  exists entry. eexists; eexists.
  split; [exact Hin |].
  split; [now apply arrayGet_nth with (d := sampleSermon) in Hget |].
  split; [reflexivity |]. repeat split.
Qed.

(** C7 on a device that is offline, the draw being one half (the second
    entry of the table): for the purpose [grief], and for the purpose whose
    first code unit is 233, the e with acute accent, followed by [veil],
    where the runtime maps 233 to 201, the capital letter. *)
Lemma offline_fallback_witness :
  (exists entry s t,
     In entry sampleSermons
     /\ entry = nth 1 sampleSermons sampleSermon
     /\ generateKhutba offlineEnv "grief" = (Normal s, t)
     /\ attempts t = 0%nat
     /\ errorType s = Some Network
     /\ title s = "Managing Anger: The Islamic Approach to Emotional Control - Grief")
  /\ (exists entry s t,
        In entry sampleSermons
        /\ entry = nth 1 sampleSermons sampleSermon
        /\ generateKhutba offlineEnv (String 233%N "veil") = (Normal s, t)
        /\ attempts t = 0%nat
        /\ errorType s = Some Network
        /\ title s
           = "Managing Anger: The Islamic Approach to Emotional Control - "
             ++ String 201%N "veil").
Proof.
  split.
  - destruct (offline_fallback offlineEnv "grief" eq_refl)
      as [entry [s [t [Hin [He [Hrun [Ha [Hk Ht]]]]]]]].
    exists entry, s, t. repeat (split; [assumption |]).
    rewrite Ht, He. reflexivity.
  - destruct (offline_fallback offlineEnv (String 233%N "veil") eq_refl)
      as [entry [s [t [Hin [He [Hrun [Ha [Hk Ht]]]]]]]].
    exists entry, s, t. repeat (split; [assumption |]).
    rewrite Ht, He. reflexivity.
Defined.

(** C8, as the code has it: online, if the first two attempts end in
    errors that the loop retries (the message holds a network marker and
    no authentication marker) and the third is answered with a 2xx
    response whose body decodes, then exactly 3 requests are made, after
    waits of 2000 ms and 4000 ms, and the body is returned with the
    purpose stored. Its [errorType] is what the body carried (none for a
    body without that field). Its [fullAudioUrl] is the resolved URL, which
    starts with [http], when the body's [audio_url] is a non-empty string,
    and the empty string when [audio_url] is empty or absent. *)
Theorem two_network_failures_then_success
    (env : Env) (purpose0 : string) (r : Response) (data : Sermon) :
  isOnline env = true ->
  retried purpose0 (network env 0) = true ->
  retried purpose0 (network env 1) = true ->
  network env 2 = FetchResolves r ->
  ok r = true ->
  bodyJson r = JsonValue data ->
  exists s t,
    generateKhutba env purpose0 = (Normal s, t)
    /\ attempts t = 3%nat
    /\ waits t = [2000; 4000]
    /\ purpose s = Some purpose0
    /\ errorType s = errorType data
    /\ match audio_url data with
       | Some u =>
           if truthy u
           then fullAudioUrl s = Some (resolvedUrl u) /\ isAbsolute (resolvedUrl u) = true
           else fullAudioUrl s = Some ""
       | None => fullAudioUrl s = Some ""
       end.
Proof.
  intros Hon H0 H1 Hnet Hok Hjson.
  assert (Hall : forall i, (i < 2)%nat -> retried purpose0 (network env i) = true).
  { intros i Hi. assert (Hc : i = 0%nat \/ i = 1%nat) by lia.
    destruct Hc as [-> | ->]; assumption. }
  exists (withFullAudioUrl purpose0 data), (runTrace purpose0 2).
  split; [now apply generateKhutba_success with (r := r) |].
  split; [apply attempts_runTrace |].
  split; [apply waits_runTrace |].
  split; [reflexivity |]. split; [reflexivity |].
  rewrite withFullAudioUrl_full.
  destruct (audio_url data) as [u |]; [| reflexivity].
  destruct (truthy u); [| reflexivity].
  split; [reflexivity | apply resolvedUrl_absolute].
Qed.

(** C8 at two dropped connections followed by a 200 response whose body
    has the [audio_url] [foo.wav]. *)
Lemma two_network_failures_then_success_witness :
  exists s t,
    generateKhutba (flakyEnv bodyRelative) "grief" = (Normal s, t)
    /\ attempts t = 3%nat
    /\ waits t = [2000; 4000]
    /\ purpose s = Some "grief"
    /\ errorType s = None
    /\ fullAudioUrl s = Some "https://islamicaudio.techrealm.online/foo.wav"
    /\ isAbsolute "https://islamicaudio.techrealm.online/foo.wav" = true.
Proof.
  apply (two_network_failures_then_success (flakyEnv bodyRelative) "grief"
           (okResponse bodyRelative) bodyRelative);
    reflexivity.
Defined.

(** C8 does not hold as stated: after two dropped connections, a 200
    response whose body has an empty [audio_url] is returned after 3
    attempts with the empty string as [fullAudioUrl], which is not an
    absolute URL. *)
Lemma third_attempt_empty_url :
  exists s t,
    generateKhutba (flakyEnv bodyEmptyUrl) "grief" = (Normal s, t)
    /\ attempts t = 3%nat
    /\ errorType s = None
    /\ fullAudioUrl s = Some ""
    /\ isAbsolute "" = false.
Proof.
  eexists; eexists. repeat split.
Qed.

(** C9: every run that does not end with data from the server returns
    a copy of a table entry. If the device is offline, or the last request
    of the run was not answered with a 2xx response whose body decodes
    (it was rejected, had another status, or its body did not decode),
    the Sermon returned is built from the entry of the 3-entry fallback
    table at the index [floor (fl (3 u))], [u] the value of
    [Math.random()] and [fl] the rounding of the product to a double.
    That index [i] lies in [0, 3) and is the integer part of [3 u] up to
    that rounding, [i - 2^-52 <= 3 u < i + 1]: a third of the unit
    interval for each entry. [text], [audio_url] and [fullAudioUrl] are
    the entry's; the title is the entry's title, [ - ] and the purpose
    with its first character upper-cased as the runtime does; [purpose]
    and [errorType] are set. *)
Theorem fallback_frame (env : Env) (purpose0 : string) :
  exists s t,
    generateKhutba env purpose0 = (Normal s, t)
    /\ List.length sampleSermons = 3%nat
    /\ 0 <= randomIndex env < 3
    /\ (inject_Z (randomIndex env) - (1 # 4503599627370496)
          <= draw (random env) * inject_Z 3
        /\ draw (random env) * inject_Z 3 < inject_Z (randomIndex env + 1))%Q
    /\ (isOnline env = false
        \/ (exists k, attempts t = S k /\ answeredWith env k = None) ->
        let entry := nth (Z.to_nat (randomIndex env)) sampleSermons sampleSermon in
        text s = text entry
        /\ audio_url s = audio_url entry
        /\ fullAudioUrl s = fullAudioUrl entry
        /\ title s
           = title entry ++ " - " ++ toUpperCase env (charAt0 purpose0) ++ slice1 purpose0
        /\ purpose s = Some purpose0
        /\ exists kind, errorType s = Some kind).
Proof.
  assert (Hfb : forall e t0,
             exists s t,
               onFailure env purpose0 e t0 = (Normal s, t)
               /\ attempts t = attempts t0
               /\ let entry := nth (Z.to_nat (randomIndex env)) sampleSermons sampleSermon in
                  text s = text entry
                  /\ audio_url s = audio_url entry
                  /\ fullAudioUrl s = fullAudioUrl entry
                  /\ title s
                     = title entry ++ " - "
                       ++ toUpperCase env (charAt0 purpose0) ++ slice1 purpose0
                  /\ purpose s = Some purpose0
                  /\ exists kind, errorType s = Some kind).
  { intros e t0.
    destruct (onFailure_eq env purpose0 e t0) as [entry [Hget [_ ->]]].
    apply arrayGet_nth with (d := sampleSermon) in Hget.
    eexists; eexists. split; [reflexivity |]. split.
    - rewrite attempts_app. destruct (fst (classify e)); cbn; lia.
    - cbn zeta. rewrite <- Hget. repeat split. eexists. reflexivity. }
  pose proof (randomIndex_range env) as Hrange.
  pose proof (randomIndex_bounds env) as Hbounds.
  destruct (isOnline env) eqn:Hon.
  - destruct (last_attempt_exists env purpose0) as [k [Hk [Hall Hstop]]].
    pose proof (generateKhutba_online env purpose0 k Hon Hk Hall Hstop) as Hrun.
    destruct (handleOutcome purpose0 (network env k)) as [s | e |] eqn:Hout.
    + exists s, (runTrace purpose0 k). split; [exact Hrun |].
      repeat (split; [reflexivity || assumption || apply Hbounds |]).
      intros [Hoff | [k' [Hk' Hnone]]]; [discriminate | exfalso].
      rewrite attempts_runTrace in Hk'. injection Hk' as <-.
      unfold answeredWith in Hnone.
      destruct (network env k) as [e | r]; [discriminate |].
      cbn [handleOutcome] in Hout.
      destruct (ok r); cbn [negb] in Hout;
        [| destruct (isAuthResponse r); discriminate].
      destruct (bodyJson r); discriminate.
    + destruct (Hfb (ThrownError (toError e)) (runTrace purpose0 k))
        as [s [t [Hs [_ Hframe]]]].
      exists s, t. split; [now rewrite Hrun |].
      repeat (split; [reflexivity || assumption || apply Hbounds |]).
      intros _. exact Hframe.
    + now destruct (handleOutcome_settles purpose0 (network env k)).
  - destruct (Hfb (ThrownError "network_offline") []) as [s [t [Hs [_ Hframe]]]].
    exists s, t. split; [now rewrite (generateKhutba_offline env purpose0 Hon) |].
    repeat (split; [reflexivity || assumption || apply Hbounds |]).
    intros _. exact Hframe.
Qed.

(** C9 on a device that is offline. With the draw one half the Sermon is
    the second entry of the table; with the draw 0.6666666666666666,
    whose triple rounds to 2, it is the third. *)
Lemma fallback_frame_witness :
  (exists s t,
     generateKhutba offlineEnv "grief" = (Normal s, t)
     /\ randomIndex offlineEnv = 1
     /\ text s = text (nth 1 sampleSermons sampleSermon)
     /\ audio_url s = audio_url sampleSermon
     /\ fullAudioUrl s = fullAudioUrl sampleSermon
     /\ title s = "Managing Anger: The Islamic Approach to Emotional Control - Grief"
     /\ purpose s = Some "grief"
     /\ exists kind, errorType s = Some kind)
  /\ (exists s t,
        generateKhutba (offlineEnvAt twoThirdsDraw) "grief" = (Normal s, t)
        /\ randomIndex (offlineEnvAt twoThirdsDraw) = 2
        /\ text s = text (nth 2 sampleSermons sampleSermon)
        /\ audio_url s = audio_url sampleSermon
        /\ fullAudioUrl s = fullAudioUrl sampleSermon
        /\ title s = "The Power of Gratitude in Islamic Tradition - Grief"
        /\ purpose s = Some "grief"
        /\ exists kind, errorType s = Some kind).
Proof.
  split.
  - destruct (fallback_frame offlineEnv "grief") as [s [t [Hrun [_ [_ [_ Hframe]]]]]].
    exists s, t. split; [exact Hrun |]. split; [reflexivity |].
    apply Hframe. left. reflexivity.
  - destruct (fallback_frame (offlineEnvAt twoThirdsDraw) "grief")
      as [s [t [Hrun [_ [_ [_ Hframe]]]]]].
    exists s, t. split; [exact Hrun |]. split; [reflexivity |].
    apply Hframe. left. reflexivity.
Defined.

(** C10: when the answered attempt carries a body whose [audio_url] is
    the empty string or absent, the promise still resolves with that body:
    [fullAudioUrl] is the empty string, [text] and [title] are the body's,
    the purpose is stored, [errorType] is left as the body has it, and no
    toast is shown. *)
Theorem empty_audio_url
    (env : Env) (purpose0 : string) (k : nat) (r : Response) (data : Sermon) :
  isOnline env = true ->
  (k <= 2)%nat ->
  (forall i, (i < k)%nat -> retried purpose0 (network env i) = true) ->
  network env k = FetchResolves r ->
  ok r = true ->
  bodyJson r = JsonValue data ->
  audio_url data = None \/ audio_url data = Some "" ->
  exists s t,
    generateKhutba env purpose0 = (Normal s, t)
    /\ fullAudioUrl s = Some ""
    /\ audio_url s = audio_url data
    /\ text s = text data
    /\ title s = title data
    /\ purpose s = Some purpose0
    /\ errorType s = errorType data
    /\ forallb (fun ev => negb (isToast ev)) t = true.
Proof.
  intros Hon Hk Hall Hnet Hok Hjson Hurl.
  exists (withFullAudioUrl purpose0 data), (runTrace purpose0 k).
  split; [now apply generateKhutba_success with (r := r) |].
  split.
  - rewrite withFullAudioUrl_full. destruct Hurl as [-> | ->]; reflexivity.
  - repeat split. apply toasts_runTrace.
Qed.

(** C10 at a 200 response whose body has an empty [audio_url], and at one
    whose body has none and that arrives on the third attempt. *)
Lemma empty_audio_url_witness :
  (exists s t,
     generateKhutba (constantEnv (FetchResolves (okResponse bodyEmptyUrl))) "grief" = (Normal s, t)
     /\ fullAudioUrl s = Some ""
     /\ audio_url s = Some ""
     /\ text s = "Patience is light."
     /\ title s = "On Patience"
     /\ purpose s = Some "grief"
     /\ errorType s = None
     /\ forallb (fun ev => negb (isToast ev)) t = true)
  /\ (exists s t,
        generateKhutba (flakyEnv bodyNoUrl) "grief" = (Normal s, t)
        /\ fullAudioUrl s = Some ""
        /\ audio_url s = None
        /\ text s = "Patience is light."
        /\ title s = "On Patience"
        /\ purpose s = Some "grief"
        /\ errorType s = None
        /\ forallb (fun ev => negb (isToast ev)) t = true).
Proof.
  split.
  - apply (empty_audio_url (constantEnv (FetchResolves (okResponse bodyEmptyUrl))) "grief" 0
             (okResponse bodyEmptyUrl) bodyEmptyUrl);
      try reflexivity; try lia. right. reflexivity.
  - apply (empty_audio_url (flakyEnv bodyNoUrl) "grief" 2 (okResponse bodyNoUrl) bodyNoUrl);
      try reflexivity; try lia.
    + intros i Hi. destruct i as [| [| i]]; [reflexivity | reflexivity | lia].
    + left. reflexivity.
Defined.


(** * Further properties of the request function *)

(** ** Classification of messages *)

Section Classification.

Variable m : string.

(** What the loop takes for an authentication failure (lines 143-145) the
    outer [catch] reports as one (lines 191-199). *)
Lemma classify_auth_message :
  isAuthMessage m = true -> fst (classify (ThrownError m)) = Auth.
Proof.
  intros H. unfold classify.
  destruct (JsString.eqb m "network_offline") eqn:E.
  - apply string_eqb_eq in E. subst m. discriminate H.
  - unfold isAuthMessage in H. rewrite H. reflexivity.
Qed.

(** What the loop retries is reported as a network failure, unless it
    holds [auth token], a marker that only the outer [catch] knows. *)
Lemma classify_retried_message :
  isAuthMessage m = false ->
  isNetworkError m = true ->
  fst (classify (ThrownError m))
  = if includes m "auth token" then Auth else Network.
Proof.
  intros Hauth Hnet. unfold classify.
  destruct (JsString.eqb m "network_offline") eqn:E.
  - apply string_eqb_eq in E. subst m. reflexivity.
  - unfold isAuthMessage in Hauth. rewrite Hauth, Hnet. cbn [orb].
    destruct (includes m "auth token"); reflexivity.
Qed.

End Classification.

(** ** The shape of every run *)

Section Shape.

Variable env : Env.
Variable purpose0 : string.

Lemma isOnline_navigator : isOnline env = true <-> navigator env = Some true.
Proof.
  unfold isOnline. destruct (navigator env) as [[|] |]; split; congruence.
Qed.

Lemma requests_retries (j k : nat) :
  filter isFetch (retries purpose0 j k) = repeat (fetchEvent purpose0) k.
Proof.
  revert j. induction k as [| k IH]; intros j; [reflexivity |].
  unfold retries in *. cbn [seq map List.concat].
  rewrite filter_app, IH. reflexivity.
Qed.

Lemma requests_runTrace (k : nat) :
  filter isFetch (runTrace purpose0 k) = repeat (fetchEvent purpose0) (S k).
Proof.
  unfold runTrace. rewrite filter_app, requests_retries.
  cbn [filter isFetch fetchEvent]. now rewrite <- repeat_cons.
Qed.

Lemma no_toast_runTrace (k : nat) : filter isToast (runTrace purpose0 k) = [].
Proof.
  unfold runTrace, retries. rewrite filter_app. cbn [filter fetchEvent isToast].
  rewrite app_nil_r. generalize 0%nat.
  induction k as [| k IH]; intros j; [reflexivity |].
  cbn [seq map List.concat]. rewrite filter_app, IH. reflexivity.
Qed.

Lemma fallbackToasts_quiet (error : Thrown) :
  filter isFetch (fallbackToasts error) = []
  /\ waits (fallbackToasts error) = []
  /\ filter isToast (fallbackToasts error) = fallbackToasts error.
Proof.
  unfold fallbackToasts. destruct (fst (classify error)); repeat split.
Qed.

(** Every run is of one of three kinds: offline; online and answered at
    attempt [k]; online and failed for good at attempt [k]. *)
Lemma run_shape :
  (isOnline env = false
   /\ exists entry,
        In entry sampleSermons
        /\ generateKhutba env purpose0
           = (Normal (fallbackFrom env entry purpose0 Network),
              fallbackToasts (ThrownError "network_offline")))
  \/ (isOnline env = true
      /\ exists k,
           (k <= 2)%nat
           /\ (forall i, (i < k)%nat -> retried purpose0 (network env i) = true)
           /\ (retried purpose0 (network env k) = false \/ k = 2%nat)
           /\ ((exists s,
                  handleOutcome purpose0 (network env k) = Normal s
                  /\ generateKhutba env purpose0 = (Normal s, runTrace purpose0 k))
               \/ (exists e entry,
                     handleOutcome purpose0 (network env k) = Throw e
                     /\ In entry sampleSermons
                     /\ generateKhutba env purpose0
                        = (Normal (fallbackFrom env entry purpose0
                                     (fst (classify (ThrownError (toError e))))),
                           (runTrace purpose0 k
                            ++ fallbackToasts (ThrownError (toError e)))%list)))).
Proof.
  destruct (isOnline env) eqn:Hon.
  - right. split; [reflexivity |].
    destruct (last_attempt_exists env purpose0) as [k [Hk [Hall Hstop]]].
    exists k. repeat (split; [assumption |]).
    pose proof (handleOutcome_settles purpose0 (network env k)) as Hs.
    destruct (handleOutcome purpose0 (network env k)) as [s | e |] eqn:Hout;
      [| | congruence].
    + left. exists s. split; [reflexivity |].
      rewrite (generateKhutba_online env purpose0 k Hon Hk Hall Hstop). now rewrite Hout.
    + right.
      destruct (generateKhutba_failure env purpose0 k e Hon Hk Hall Hstop Hout)
        as [entry [_ [Hin Hrun]]].
      exists e, entry. repeat split; assumption.
  - left. split; [reflexivity |].
    rewrite (generateKhutba_offline env purpose0 Hon).
    destruct (onFailure_eq env purpose0 (ThrownError "network_offline") [])
      as [entry [_ [Hin ->]]].
    exists entry. split; [exact Hin | reflexivity].
Qed.

End Shape.

(** ** Requests, waits and toasts of a run *)

Lemma attempts_fallbackToasts (error : Thrown) : attempts (fallbackToasts error) = 0%nat.
Proof.
  unfold attempts. now destruct (fallbackToasts_quiet error) as [-> _].
Qed.

(** X1: a run makes a request exactly when [navigator] exists and its
    [onLine] is true; without a [navigator], or with [onLine] false, no
    request is made at all. *)
Theorem requests_need_navigator (env : Env) (purpose0 : string) :
  exists s t,
    generateKhutba env purpose0 = (Normal s, t)
    /\ (attempts t = 0%nat <-> navigator env <> Some true).
Proof.
  destruct (run_shape env purpose0)
    as [[Hoff [entry [_ Hrun]]] | [Hon [k [_ [_ [_ [[s [_ Hrun]] | [e [entry [_ [_ Hrun]]]]]]]]]]];
    eexists; eexists; (split; [exact Hrun |]).
  - rewrite attempts_fallbackToasts. split; [intros _ | reflexivity].
    intros Hnav. apply isOnline_navigator in Hnav. congruence.
  - rewrite attempts_runTrace. apply isOnline_navigator in Hon.
    split; [discriminate | congruence].
  - rewrite attempts_app, attempts_runTrace. apply isOnline_navigator in Hon.
    split; [discriminate | congruence].
Qed.

(** X2: every request of a run, the first and each retry, is the same
    POST: to [/generate-khutab] under the base URL, with the purpose the
    caller gave. *)
Theorem requests_are_identical (env : Env) (purpose0 : string) :
  exists s t,
    generateKhutba env purpose0 = (Normal s, t)
    /\ filter isFetch t
       = repeat (EvFetch "https://islamicaudio.techrealm.online/generate-khutab" purpose0)
           (attempts t).
Proof.
  destruct (run_shape env purpose0)
    as [[Hoff [entry [_ Hrun]]] | [Hon [k [_ [_ [_ [[s [_ Hrun]] | [e [entry [_ [_ Hrun]]]]]]]]]]];
    eexists; eexists; (split; [exact Hrun |]).
  - rewrite attempts_fallbackToasts.
    now destruct (fallbackToasts_quiet (ThrownError "network_offline")) as [-> _].
  - rewrite attempts_runTrace. apply requests_runTrace.
  - rewrite attempts_app, attempts_runTrace, attempts_fallbackToasts, filter_app.
    destruct (fallbackToasts_quiet (ThrownError (toError e))) as [-> _].
    rewrite app_nil_r, Nat.add_0_r. apply requests_runTrace.
Qed.

(** X3: a run that returns the data of a response shows no toast. A run
    whose outer [try] body throws shows exactly two, after all requests
    and waits: first the error toast of the class of the thrown error,
    then the warning that sample data is used. *)
Theorem toasts_of_a_run (env : Env) (purpose0 : string) :
  exists s t,
    generateKhutba env purpose0 = (Normal s, t)
    /\ ((tryBody (S (Z.to_nat maxRetries)) env purpose0 [] = (Normal s, t)
         /\ filter isToast t = [])
        \/ exists e t0,
             tryBody (S (Z.to_nat maxRetries)) env purpose0 [] = (Throw e, t0)
             /\ filter isToast t0 = []
             /\ t = (t0 ++ [errorToast (fst (classify e)) (snd (classify e));
                            EvToastWarning "Using sample sermon data as fallback"
                              "Real sermon generation is unavailable at the moment."])%list
             /\ errorType s = Some (fst (classify e))).
Proof.
  change (S (Z.to_nat maxRetries)) with 3%nat.
  destruct (run_shape env purpose0)
    as [[Hoff [entry [_ Hrun]]]
       | [Hon [k [Hk [Hall [Hstop [[s [Hout Hrun]] | [e [entry [Hout [_ Hrun]]]]]]]]]]];
    eexists; eexists; (split; [exact Hrun |]).
  - right. exists (ThrownError "network_offline"), [].
    split; [now apply tryBody_offline |]. repeat split.
  - pose proof (tryBody_online env purpose0 k (2 - k) Hon Hk Hall Hstop) as Hbody.
    replace (k + S (2 - k))%nat with 3%nat in Hbody by lia.
    rewrite Hout in Hbody.
    left. split; [exact Hbody | apply no_toast_runTrace].
  - pose proof (tryBody_online env purpose0 k (2 - k) Hon Hk Hall Hstop) as Hbody.
    replace (k + S (2 - k))%nat with 3%nat in Hbody by lia.
    rewrite Hout in Hbody.
    right. exists (ThrownError (toError e)), (runTrace purpose0 k).
    split; [exact Hbody |]. split; [apply no_toast_runTrace |]. split; reflexivity.
Qed.

(** X4: a request is repeated only after a failure of the retried kind:
    in every run, each attempt before the last ended in an error whose
    message holds a network marker and no authentication marker; and the
    last attempt either is the third or did not end that way. *)
Theorem retry_only_after_network_failure (env : Env) (purpose0 : string) :
  exists s t,
    generateKhutba env purpose0 = (Normal s, t)
    /\ (forall i, (S i < attempts t)%nat -> retried purpose0 (network env i) = true)
    /\ (forall k, attempts t = S k ->
                  retried purpose0 (network env k) = false \/ k = 2%nat).
Proof.
  destruct (run_shape env purpose0)
    as [[Hoff [entry [_ Hrun]]]
       | [Hon [k [Hk [Hall [Hstop [[s [_ Hrun]] | [e [entry [_ [_ Hrun]]]]]]]]]]];
    eexists; eexists; (split; [exact Hrun |]).
  - rewrite attempts_fallbackToasts. split; [intros i Hi; lia | discriminate].
  - rewrite attempts_runTrace. split.
    + intros i Hi. apply Hall. lia.
    + intros k' Hk'. injection Hk' as <-. exact Hstop.
  - rewrite attempts_app, attempts_runTrace, attempts_fallbackToasts, Nat.add_0_r. split.
    + intros i Hi. apply Hall. lia.
    + intros k' Hk'. injection Hk' as <-. exact Hstop.
Qed.

(** ** Where the loop stops *)

(** X5: an authentication failure ends the loop at whatever attempt it
    comes. If attempt [k] (the earlier ones retried) ends in an error
    whose message is [authentication_required], as made from a 401
    response, or holds [authentication] or [Unauthenticated], then [k + 1]
    requests are made in all and the fallback Sermon has [errorType]
    [Auth]. *)
Theorem auth_failure_ends_the_loop
    (env : Env) (purpose0 : string) (k : nat) (e : Thrown) :
  isOnline env = true ->
  (k <= 2)%nat ->
  (forall i, (i < k)%nat -> retried purpose0 (network env i) = true) ->
  handleOutcome purpose0 (network env k) = Throw e ->
  isAuthMessage (toError e) = true ->
  exists entry s t,
    In entry sampleSermons
    /\ generateKhutba env purpose0 = (Normal s, t)
    /\ s = fallbackFrom env entry purpose0 Auth
    /\ attempts t = S k
    /\ waits t = map backoff (seq 0 k).
Proof.
  intros Hon Hk Hall Hout Hauth.
  assert (Hstop : retried purpose0 (network env k) = false \/ k = 2%nat).
  { left. unfold retried. now rewrite Hout, Hauth. }
  destruct (generateKhutba_failure env purpose0 k e Hon Hk Hall Hstop Hout)
    as [entry [_ [Hin Hrun]]].
  exists entry. eexists; eexists.
  split; [exact Hin |]. split; [exact Hrun |].
  split; [now rewrite classify_auth_message |].
  quiet_toasts. split; [apply attempts_runTrace | apply waits_runTrace].
Qed.

(** X5 at a dropped connection followed by a 401 response: two requests,
    one wait of 2000 ms. *)
Lemma auth_failure_ends_the_loop_witness :
  exists entry s t,
    In entry sampleSermons
    /\ generateKhutba
         (sequenceEnv [FetchRejects (ThrownError "Failed to fetch")]
            (FetchResolves (errorResponse 401 "Unauthorized" ""))) "grief"
       = (Normal s, t)
    /\ s = fallbackFrom
             (sequenceEnv [FetchRejects (ThrownError "Failed to fetch")] (FetchResolves (errorResponse 401 "Unauthorized" "")))
             entry "grief" Auth
    /\ attempts t = 2%nat
    /\ waits t = [2000].
Proof.
  apply (auth_failure_ends_the_loop
           (sequenceEnv [FetchRejects (ThrownError "Failed to fetch")]
              (FetchResolves (errorResponse 401 "Unauthorized" "")))
           "grief" 1 (ThrownError "authentication_required")).
  - reflexivity.
  - lia.
  - intros i Hi. destruct i as [| i]; [reflexivity | lia].
  - reflexivity.
  - reflexivity.
Defined.

(** X6: when all three attempts end in errors of the retried kind, three
    requests are made, after waits of 2000 ms and 4000 ms nothing more is
    tried, and the fallback Sermon is returned. Its [errorType] is
    [Network], unless the last message holds [auth token]: the loop does
    not know that marker and retries, the outer [catch] does and reports
    [Auth]. *)
Theorem retries_exhausted (env : Env) (purpose0 : string) (e : Thrown) :
  isOnline env = true ->
  retried purpose0 (network env 0) = true ->
  retried purpose0 (network env 1) = true ->
  handleOutcome purpose0 (network env 2) = Throw e ->
  isAuthMessage (toError e) = false ->
  isNetworkError (toError e) = true ->
  exists entry s t,
    In entry sampleSermons
    /\ generateKhutba env purpose0 = (Normal s, t)
    /\ s = fallbackFrom env entry purpose0
             (if includes (toError e) "auth token" then Auth else Network)
    /\ attempts t = 3%nat
    /\ waits t = [2000; 4000].
Proof.
  intros Hon H0 H1 Hout Hauth Hnet.
  assert (Hall : forall i, (i < 2)%nat -> retried purpose0 (network env i) = true).
  { intros i Hi. assert (Hc : i = 0%nat \/ i = 1%nat) by lia.
    destruct Hc as [-> | ->]; assumption. }
  destruct (generateKhutba_failure env purpose0 2 e Hon (Nat.le_refl 2) Hall
              (or_intror eq_refl) Hout)
    as [entry [_ [Hin Hrun]]].
  exists entry. eexists; eexists.
  split; [exact Hin |]. split; [exact Hrun |].
  split; [now rewrite classify_retried_message |].
  quiet_toasts. split; [apply attempts_runTrace | apply waits_runTrace].
Qed.

(** X6 when every request fails with [Failed to fetch] (class [Network]),
    and when every request fails with a network error that mentions an
    [auth token] (retried twice all the same, class [Auth]). *)
Lemma retries_exhausted_witness :
  (exists entry s t,
     In entry sampleSermons
     /\ generateKhutba (constantEnv (FetchRejects (ThrownError "Failed to fetch"))) "grief"
        = (Normal s, t)
     /\ s = fallbackFrom
              (constantEnv (FetchRejects (ThrownError "Failed to fetch")))
              entry "grief" Network
     /\ attempts t = 3%nat
     /\ waits t = [2000; 4000])
  /\ (exists entry s t,
        In entry sampleSermons
        /\ generateKhutba
             (constantEnv (FetchRejects (ThrownError "Network error: auth token expired")))
             "grief"
           = (Normal s, t)
        /\ s = fallbackFrom
                 (constantEnv (FetchRejects (ThrownError "Network error: auth token expired")))
                 entry "grief" Auth
        /\ attempts t = 3%nat
        /\ waits t = [2000; 4000]).
Proof.
  split.
  - apply (retries_exhausted (constantEnv (FetchRejects (ThrownError "Failed to fetch")))
             "grief" (ThrownError "Failed to fetch"));
      reflexivity.
  - apply (retries_exhausted
             (constantEnv (FetchRejects (ThrownError "Network error: auth token expired")))
             "grief" (ThrownError "Network error: auth token expired"));
      reflexivity.
Defined.

(** X7: a [fetch] that rejects with a value that is no [Error] is not
    retried. If that happens at attempt [k], [k + 1] requests are made in
    all, the fallback Sermon has [errorType] [Other], and the error toast
    is [Failed to generate sermon] with the description [Unknown error]. *)
Theorem non_error_rejection (env : Env) (purpose0 : string) (k : nat) :
  isOnline env = true ->
  (k <= 2)%nat ->
  (forall i, (i < k)%nat -> retried purpose0 (network env i) = true) ->
  network env k = FetchRejects ThrownOther ->
  exists entry s t,
    In entry sampleSermons
    /\ generateKhutba env purpose0 = (Normal s, t)
    /\ s = fallbackFrom env entry purpose0 Other
    /\ attempts t = S k
    /\ filter isToast t
       = [EvToastError "Failed to generate sermon" "Unknown error";
          EvToastWarning "Using sample sermon data as fallback"
            "Real sermon generation is unavailable at the moment."].
Proof.
  intros Hon Hk Hall Hnet.
  assert (Hout : handleOutcome purpose0 (network env k) = Throw ThrownOther)
    by now rewrite Hnet.
  assert (Hstop : retried purpose0 (network env k) = false \/ k = 2%nat).
  { left. unfold retried. now rewrite Hout. }
  destruct (generateKhutba_failure env purpose0 k ThrownOther Hon Hk Hall Hstop Hout)
    as [entry [_ [Hin Hrun]]].
  exists entry. eexists; eexists.
  split; [exact Hin |]. split; [exact Hrun |].
  split; [reflexivity |].
  split.
  - rewrite attempts_app, attempts_runTrace. cbn. lia.
  - rewrite filter_app, no_toast_runTrace. reflexivity.
Qed.

(** X7 when the first request is rejected with such a value. *)
Lemma non_error_rejection_witness :
  exists entry s t,
    In entry sampleSermons
    /\ generateKhutba (constantEnv (FetchRejects ThrownOther)) "grief" = (Normal s, t)
    /\ s = fallbackFrom
             (constantEnv (FetchRejects ThrownOther))
             entry "grief" Other
    /\ attempts t = 1%nat
    /\ filter isToast t
       = [EvToastError "Failed to generate sermon" "Unknown error";
          EvToastWarning "Using sample sermon data as fallback"
            "Real sermon generation is unavailable at the moment."].
Proof.
  apply (non_error_rejection (constantEnv (FetchRejects ThrownOther)) "grief" 0).
  - reflexivity.
  - lia.
  - intros i Hi. lia.
  - reflexivity.
Defined.

(** ** Responses *)

(** Only a 2xx response with a body that decodes makes an attempt end
    normally. *)
Lemma handleOutcome_normal (purpose0 : string) (o : FetchOutcome) (s : Sermon) :
  handleOutcome purpose0 o = Normal s ->
  exists r data,
    o = FetchResolves r
    /\ ok r = true
    /\ bodyJson r = JsonValue data
    /\ s = withFullAudioUrl purpose0 data.
Proof.
  destruct o as [e | r]; cbn [handleOutcome]; [discriminate |].
  destruct (ok r) eqn:Hok; cbn [negb].
  - destruct (bodyJson r) as [e | data] eqn:Hjson; [discriminate |].
    intros H. injection H as <-. now exists r, data.
  - destruct (isAuthResponse r); discriminate.
Qed.

(** X8: online, a first response with status 500 or 503 whose body holds
    no [auth] in any letter case, and whose message
    [Server responded with <status>: <statusText>. <body>] holds no
    authentication marker and no network marker, is not retried: one
    request is made, the fallback Sermon has [errorType] [Server], and the
    error toast is [Server Error] with the try-again-later text. *)
Theorem server_error_is_reported_once (env : Env) (purpose0 : string) (r : Response) :
  isOnline env = true ->
  network env 0 = FetchResolves r ->
  status r = 500 \/ status r = 503 ->
  isAuthResponse r = false ->
  includes (serverErrorMessage r) "authentication" = false ->
  includes (serverErrorMessage r) "Unauthenticated" = false ->
  includes (serverErrorMessage r) "auth token" = false ->
  isNetworkError (serverErrorMessage r) = false ->
  exists entry s t,
    In entry sampleSermons
    /\ generateKhutba env purpose0 = (Normal s, t)
    /\ s = fallbackFrom env entry purpose0 Server
    /\ attempts t = 1%nat
    /\ waits t = []
    /\ filter isToast t
       = [EvToastError "Server Error"
            "The sermon server is experiencing issues. Please try again later.";
          EvToastWarning "Using sample sermon data as fallback"
            "Real sermon generation is unavailable at the moment."].
Proof.
  intros Hon Hnet Hstatus Hnauth Ha1 Ha2 Ha3 Hnn.
  assert (Hnok : ok r = false).
  { unfold ok. destruct Hstatus as [-> | ->]; reflexivity. }
  assert (Hout : handleOutcome purpose0 (network env 0)
                 = Throw (ThrownError (serverErrorMessage r))).
  { rewrite Hnet. cbn [handleOutcome]. now rewrite Hnok, Hnauth. }
  assert (Hcode : includes (serverErrorMessage r) "500" || includes (serverErrorMessage r) "503"
                  = true).
  { unfold serverErrorMessage.
    destruct Hstatus as [-> | ->]; [apply orb_true_iff; left | apply orb_true_iff; right];
      reflexivity. }
  assert (Hcls : classify (ThrownError (serverErrorMessage r))
                 = (Server, "The sermon server is experiencing issues. Please try again later.")).
  { unfold classify.
    change (JsString.eqb (serverErrorMessage r) "network_offline") with false.
    change (JsString.eqb (serverErrorMessage r) "authentication_required") with false.
    rewrite Ha1, Ha2, Ha3, Hnn, Hcode. reflexivity. }
  assert (Hstop : retried purpose0 (network env 0) = false \/ 0%nat = 2%nat).
  { left. unfold retried. rewrite Hout. cbn [toError]. rewrite Hnn. apply andb_false_r. }
  assert (Hall : forall i, (i < 0)%nat -> retried purpose0 (network env i) = true)
    by (intros i Hi; lia).
  destruct (generateKhutba_failure env purpose0 0 _ Hon (Nat.le_0_l 2) Hall Hstop Hout)
    as [entry [_ [Hin Hrun]]].
  cbn [toError] in Hrun. rewrite Hcls in Hrun. cbn [fst snd] in Hrun.
  exists entry. eexists; eexists.
  split; [exact Hin |]. split; [exact Hrun |].
  repeat split.
Qed.

(** X8 at a 503 response with the body [maintenance]. *)
Lemma server_error_is_reported_once_witness :
  exists entry s t,
    In entry sampleSermons
    /\ generateKhutba
         (constantEnv (FetchResolves (errorResponse 503 "Service Unavailable" "maintenance")))
         "grief"
       = (Normal s, t)
    /\ s = fallbackFrom
             (constantEnv (FetchResolves (errorResponse 503 "Service Unavailable" "maintenance")))
             entry "grief" Server
    /\ attempts t = 1%nat
    /\ waits t = []
    /\ filter isToast t
       = [EvToastError "Server Error"
            "The sermon server is experiencing issues. Please try again later.";
          EvToastWarning "Using sample sermon data as fallback"
            "Real sermon generation is unavailable at the moment."].
Proof.
  apply (server_error_is_reported_once
           (constantEnv (FetchResolves (errorResponse 503 "Service Unavailable" "maintenance")))
           "grief" (errorResponse 503 "Service Unavailable" "maintenance"));
    try reflexivity.
  right. reflexivity.
Defined.

(** X9: the class the outer [catch] gives a message, in terms of the two
    tests of the loop. A message the loop takes for an authentication
    failure is of class [Auth]; one the loop retries is of class
    [Network], or [Auth] if it holds [auth token]; any other message is
    [Auth] if it holds [auth token], else [Server] if it holds [500],
    [503] or [server], else [Other]. The offline marker needs no case of
    its own. *)
Theorem classify_by_loop_tests (message : string) :
  fst (classify (ThrownError message))
  = if isAuthMessage message then Auth
    else if includes message "auth token" then Auth
    else if isNetworkError message then Network
    else if includes message "500" || includes message "503" || includes message "server"
         then Server
         else Other.
Proof.
  destruct (isAuthMessage message) eqn:Hauth.
  - now apply classify_auth_message.
  - destruct (isNetworkError message) eqn:Hnet.
    + rewrite classify_retried_message by assumption.
      destruct (includes message "auth token"); reflexivity.
    + unfold classify.
      destruct (JsString.eqb message "network_offline") eqn:E.
      * apply string_eqb_eq in E. subst message. discriminate Hnet.
      * unfold isAuthMessage in Hauth. rewrite Hauth, Hnet. cbn [orb].
        destruct (includes message "auth token"); [reflexivity |].
        destruct (includes message "500" || includes message "503"
                  || includes message "server"); reflexivity.
Qed.

(** ** The Sermon returned *)

(** X10: every Sermon returned, from a response or from the fallback
    table, carries the purpose of the call in [purpose], also when the
    response body came with a purpose of its own. *)
Theorem purpose_is_echoed (env : Env) (purpose0 : string) :
  exists s t,
    generateKhutba env purpose0 = (Normal s, t)
    /\ purpose s = Some purpose0.
Proof.
  destruct (run_shape env purpose0)
    as [[Hoff [entry [_ Hrun]]]
       | [Hon [k [_ [_ [_ [[s [Hout Hrun]] | [e [entry [_ [_ Hrun]]]]]]]]]]];
    eexists; eexists; (split; [exact Hrun |]); try reflexivity.
  apply handleOutcome_normal in Hout.
  destruct Hout as [r [data [_ [_ [_ ->]]]]]. reflexivity.
Qed.

(** X11: the data of a response is returned as it came, but for two
    fields. If attempt [k] (the earlier ones retried) is answered with any
    status in 200..299 and a body that decodes, the Sermon returned has
    the body's [audio_url], [text], [title] and [errorType]; the request's
    purpose replaces the body's, and [fullAudioUrl] is computed anew from
    [audio_url], whatever the body had there. The text of the body is not
    searched for authentication markers. *)
Theorem response_data_is_kept
    (env : Env) (purpose0 : string) (k : nat) (r : Response) (data : Sermon) :
  isOnline env = true ->
  (k <= 2)%nat ->
  (forall i, (i < k)%nat -> retried purpose0 (network env i) = true) ->
  network env k = FetchResolves r ->
  200 <= status r <= 299 ->
  bodyJson r = JsonValue data ->
  exists s t,
    generateKhutba env purpose0 = (Normal s, t)
    /\ audio_url s = audio_url data
    /\ text s = text data
    /\ title s = title data
    /\ errorType s = errorType data
    /\ purpose s = Some purpose0
    /\ fullAudioUrl s
       = Some match audio_url data with
              | Some u => if truthy u then resolvedUrl u else ""
              | None => ""
              end
    /\ attempts t = S k
    /\ filter isToast t = [].
Proof.
  intros Hon Hk Hall Hnet Hstatus Hjson.
  assert (Hok : ok r = true).
  { unfold ok. apply andb_true_iff. split; apply Z.leb_le; lia. }
  exists (withFullAudioUrl purpose0 data), (runTrace purpose0 k).
  split; [now apply generateKhutba_success with (r := r) |].
  repeat split.
  - apply attempts_runTrace.
  - apply no_toast_runTrace.
Qed.

(** X11 at a 201 response whose text mentions [Unauthenticated] and whose
    body carries a purpose and a full URL of its own. *)
Lemma response_data_is_kept_witness :
  exists s t,
    generateKhutba
      (constantEnv (FetchResolves createdResponse)) "grief"
    = (Normal s, t)
    /\ audio_url s = Some "/a.wav"
    /\ text s = "Body"
    /\ title s = "Heading"
    /\ errorType s = None
    /\ purpose s = Some "grief"
    /\ fullAudioUrl s = Some "https://islamicaudio.techrealm.online/a.wav"
    /\ attempts t = 1%nat
    /\ filter isToast t = [].
Proof.
  apply (response_data_is_kept (constantEnv (FetchResolves createdResponse)) "grief" 0
           createdResponse bodyStale);
    try reflexivity; try lia.
  split; discriminate.
Defined.

(** X12: data is only ever taken from a 2xx response. If no request of
    the environment is answered with a status in 200..299 (1xx, 3xx, 4xx
    and 5xx responses and rejected requests alike), the Sermon returned is
    built from an entry of the fallback table and its [errorType] is
    set. *)
Theorem no_success_status_no_data (env : Env) (purpose0 : string) :
  (forall n r, network env n = FetchResolves r -> status r < 200 \/ 299 < status r) ->
  exists entry kind s t,
    In entry sampleSermons
    /\ generateKhutba env purpose0 = (Normal s, t)
    /\ s = fallbackFrom env entry purpose0 kind
    /\ errorType s = Some kind.
Proof.
  intros Hnone.
  destruct (run_shape env purpose0)
    as [[Hoff [entry [Hin Hrun]]]
       | [Hon [k [_ [_ [_ [[s [Hout Hrun]] | [e [entry [_ [Hin Hrun]]]]]]]]]]].
  - exists entry, Network. eexists; eexists. repeat split; [exact Hin | exact Hrun].
  - apply handleOutcome_normal in Hout.
    destruct Hout as [r [data [Hnet [Hok _]]]].
    apply Hnone in Hnet. unfold ok in Hok.
    apply andb_true_iff in Hok. destruct Hok as [Hlo Hhi].
    apply Z.leb_le in Hlo. apply Z.leb_le in Hhi. lia.
  - exists entry. eexists; eexists; eexists. repeat split; [exact Hin | exact Hrun].
Qed.

(** X12 when every request is answered 304 Not Modified. *)
Lemma no_success_status_no_data_witness :
  exists entry kind s t,
    In entry sampleSermons
    /\ generateKhutba (constantEnv (FetchResolves (errorResponse 304 "Not Modified" ""))) "grief"
       = (Normal s, t)
    /\ s = fallbackFrom
             (constantEnv (FetchResolves (errorResponse 304 "Not Modified" "")))
             entry "grief" kind
    /\ errorType s = Some kind.
Proof.
  apply (no_success_status_no_data
           (constantEnv (FetchResolves (errorResponse 304 "Not Modified" ""))) "grief").
  intros n r H. injection H as <-. right. reflexivity.
Defined.

(** ** The audio URL and the title *)

(** X13: a leading slash of a relative [audio_url] is optional: for a
    non-empty [u] that starts neither with [http] nor with a slash, the
    bodies with [audio_url] [u] and [/u] get the same [fullAudioUrl], the
    base URL, a slash and [u]. The empty [u] is different: it gives the
    empty string, where [/] gives the base URL and a slash. *)
Theorem leading_slash_is_optional (purpose0 : string) (data : Sermon) (u : string) :
  u <> "" ->
  startsWith u "http" = false ->
  startsWith u "/" = false ->
  fullAudioUrl (withFullAudioUrl purpose0 (setAudioUrl data (Some u)))
  = Some (API_BASE_URL ++ "/" ++ u)
  /\ fullAudioUrl (withFullAudioUrl purpose0 (setAudioUrl data (Some ("/" ++ u))))
     = Some (API_BASE_URL ++ "/" ++ u)
  /\ fullAudioUrl (withFullAudioUrl purpose0 (setAudioUrl data (Some "")))
     = Some ""
  /\ fullAudioUrl (withFullAudioUrl purpose0 (setAudioUrl data (Some "/")))
     = Some (API_BASE_URL ++ "/").
Proof.
  intros Hne Hhttp Hslash. apply truthy_nonempty in Hne.
  split; [| split; [| split; reflexivity]].
  - cbn [withFullAudioUrl fullAudioUrl audio_url setAudioUrl].
    now rewrite Hne, Hhttp, Hslash.
  - destruct u as [| c rest]; [discriminate Hne | reflexivity].
Qed.

(** X13 at [foo.wav] and [/foo.wav]. *)
Lemma leading_slash_is_optional_witness :
  fullAudioUrl (withFullAudioUrl "grief" (setAudioUrl bodyNoUrl (Some "foo.wav")))
  = Some "https://islamicaudio.techrealm.online/foo.wav"
  /\ fullAudioUrl (withFullAudioUrl "grief" (setAudioUrl bodyNoUrl (Some "/foo.wav")))
     = Some "https://islamicaudio.techrealm.online/foo.wav"
  /\ fullAudioUrl (withFullAudioUrl "grief" (setAudioUrl bodyNoUrl (Some "")))
     = Some ""
  /\ fullAudioUrl (withFullAudioUrl "grief" (setAudioUrl bodyNoUrl (Some "/")))
     = Some "https://islamicaudio.techrealm.online/".
Proof.
  apply (leading_slash_is_optional "grief" bodyNoUrl "foo.wav");
    [discriminate | reflexivity | reflexivity].
Defined.

(** X14: resolving twice changes nothing. A body whose [audio_url] is the
    [fullAudioUrl] computed for another body gets that same string as its
    [fullAudioUrl]: a resolved URL starts with [http] and passes through,
    and the empty string stays empty. *)
Theorem resolution_is_idempotent (purpose0 : string) (data : Sermon) :
  fullAudioUrl
    (withFullAudioUrl purpose0
       (setAudioUrl data (fullAudioUrl (withFullAudioUrl purpose0 data))))
  = fullAudioUrl (withFullAudioUrl purpose0 data).
Proof.
  rewrite !withFullAudioUrl_full.
  cbn [audio_url setAudioUrl].
  destruct (audio_url data) as [u |]; [| reflexivity].
  destruct (truthy u) eqn:Hu; [| reflexivity].
  assert (Habs : startsWith (resolvedUrl u) "http" = true)
    by apply resolvedUrl_absolute.
  assert (Hne : truthy (resolvedUrl u) = true).
  { unfold resolvedUrl in *. destruct (startsWith u "http"); [exact Hu | reflexivity]. }
  rewrite Hne. unfold resolvedUrl at 1. now rewrite Habs.
Qed.

(** X15: the purpose put into a fallback title has only its first
    character changed. For a first character [c] of the ASCII range the
    rest of the purpose is kept, the length is kept, [c] becomes the
    upper-case letter 32 codes below if it is one of [a]..[z] and stays as
    it is otherwise, and capitalizing twice is capitalizing once. The
    empty purpose stays empty. *)
Theorem capitalize_first_character (env : Env) (c : codeunit) (rest : string) :
  isAsciiChar c = true ->
  capitalize env "" = ""
  /\ slice1 (capitalize env (String c rest)) = rest
  /\ JsString.length (capitalize env (String c rest)) = JsString.length (String c rest)
  /\ charAt0 (capitalize env (String c rest))
     = String (if ((97 <=? c) && (c <=? 122))%N then (c - 32)%N else c) ""
  /\ capitalize env (capitalize env (String c rest)) = capitalize env (String c rest).
Proof.
  intros Hc.
  assert (Hcap : capitalize env (String c rest) = String (upperChar c) rest).
  { unfold capitalize, toUpperCase, upperCaseWith.
    cbn [charAt0 slice1 isAsciiString]. rewrite Hc. reflexivity. }
  assert (Hup : isAsciiChar (upperChar c) = true).
  { unfold isAsciiChar, upperChar in *. apply N.ltb_lt in Hc. apply N.ltb_lt.
    destruct ((97 <=? c) && (c <=? 122))%N; lia. }
  assert (Hidem : upperChar (upperChar c) = upperChar c).
  { unfold upperChar.
    destruct ((97 <=? c) && (c <=? 122))%N eqn:E; [| now rewrite E].
    apply andb_true_iff in E. destruct E as [E1 E2].
    apply N.leb_le in E1. apply N.leb_le in E2.
    replace (97 <=? c - 32)%N with false by (symmetry; apply N.leb_gt; lia).
    reflexivity. }
  split; [reflexivity |]. rewrite Hcap.
  repeat split.
  unfold capitalize, toUpperCase, upperCaseWith.
  cbn [charAt0 slice1 isAsciiString]. rewrite Hup. cbn. now rewrite Hidem.
Qed.

(** X15 at the purpose [grief]. *)
Lemma capitalize_first_character_witness :
  capitalize offlineEnv "" = ""
  /\ slice1 (capitalize offlineEnv "grief") = "rief"
  /\ JsString.length (capitalize offlineEnv "grief") = 5%nat
  /\ charAt0 (capitalize offlineEnv "grief") = "G"
  /\ capitalize offlineEnv (capitalize offlineEnv "grief") = capitalize offlineEnv "grief".
Proof.
  apply (capitalize_first_character offlineEnv 103%N "rief"). reflexivity.
Defined.

(** ** Waiting and raw messages *)

(** X16: a run waits at most 6000 ms in back-off in all, and not at all
    when it makes a single request or none. *)
Theorem total_backoff_is_bounded (env : Env) (purpose0 : string) :
  exists s t,
    generateKhutba env purpose0 = (Normal s, t)
    /\ 0 <= fold_right Z.add 0 (waits t) <= 6000
    /\ ((attempts t <= 1)%nat -> waits t = []).
Proof.
  assert (Hsum : forall k, (k <= 2)%nat ->
             0 <= fold_right Z.add 0 (map backoff (seq 0 k)) <= 6000
             /\ ((S k <= 1)%nat -> map backoff (seq 0 k) = [])).
  { intros k Hk. assert (Hc : k = 0%nat \/ k = 1%nat \/ k = 2%nat) by lia.
    destruct Hc as [-> | [-> | ->]]; cbn; split; lia || reflexivity || (intros; lia). }
  destruct (run_shape env purpose0)
    as [[Hoff [entry [_ Hrun]]]
       | [Hon [k [Hk [_ [_ [[s [_ Hrun]] | [e [entry [_ [_ Hrun]]]]]]]]]]];
    eexists; eexists; (split; [exact Hrun |]).
  - destruct (fallbackToasts_quiet (ThrownError "network_offline")) as [_ [-> _]].
    cbn. split; [lia | reflexivity].
  - rewrite attempts_runTrace, waits_runTrace. now apply Hsum.
  - rewrite attempts_app, attempts_runTrace, attempts_fallbackToasts, Nat.add_0_r, waits_app.
    destruct (fallbackToasts_quiet (ThrownError (toError e))) as [_ [-> _]].
    rewrite app_nil_r, waits_runTrace. now apply Hsum.
Qed.

(** X17: an error that matches no marker reaches the user as it is. If
    attempt [k] (the earlier ones retried) ends in an [Error] whose
    message holds no authentication marker, no network marker and none of
    [500], [503] and [server], whether it comes from [fetch], from
    decoding the body or from a failure status, no further request is
    made, the fallback Sermon has [errorType] [Other], and the error toast
    [Failed to generate sermon] shows that message as its description. *)
Theorem unclassified_error_is_shown_raw
    (env : Env) (purpose0 : string) (k : nat) (message : string) :
  isOnline env = true ->
  (k <= 2)%nat ->
  (forall i, (i < k)%nat -> retried purpose0 (network env i) = true) ->
  handleOutcome purpose0 (network env k) = Throw (ThrownError message) ->
  isAuthMessage message = false ->
  includes message "auth token" = false ->
  isNetworkError message = false ->
  includes message "500" || includes message "503" || includes message "server" = false ->
  exists entry s t,
    In entry sampleSermons
    /\ generateKhutba env purpose0 = (Normal s, t)
    /\ s = fallbackFrom env entry purpose0 Other
    /\ attempts t = S k
    /\ filter isToast t
       = [EvToastError "Failed to generate sermon" message;
          EvToastWarning "Using sample sermon data as fallback"
            "Real sermon generation is unavailable at the moment."].
Proof.
  intros Hon Hk Hall Hout Hauth Htoken Hnet Hserver.
  assert (Hstop : retried purpose0 (network env k) = false \/ k = 2%nat).
  { left. unfold retried. rewrite Hout. cbn [toError]. rewrite Hnet. apply andb_false_r. }
  assert (Hcls : classify (ThrownError message) = (Other, message)).
  { unfold classify.
    destruct (JsString.eqb message "network_offline") eqn:E.
    - apply string_eqb_eq in E. subst message. discriminate Hnet.
    - unfold isAuthMessage in Hauth. now rewrite Hauth, Htoken, Hnet, Hserver. }
  destruct (generateKhutba_failure env purpose0 k _ Hon Hk Hall Hstop Hout)
    as [entry [_ [Hin Hrun]]].
  cbn [toError] in Hrun. rewrite Hcls in Hrun. cbn [fst snd errorToast] in Hrun.
  exists entry. eexists; eexists.
  split; [exact Hin |]. split; [exact Hrun |].
  split; [reflexivity |].
  split.
  - rewrite attempts_app, attempts_runTrace. cbn. lia.
  - rewrite filter_app, no_toast_runTrace. reflexivity.
Qed.

(** X17 at a 200 response whose body is no JSON. *)
Lemma unclassified_error_is_shown_raw_witness :
  exists entry s t,
    In entry sampleSermons
    /\ generateKhutba (constantEnv (FetchResolves (errorResponse 200 "OK" "<html>"))) "grief"
       = (Normal s, t)
    /\ s = fallbackFrom
             (constantEnv (FetchResolves (errorResponse 200 "OK" "<html>")))
             entry "grief" Other
    /\ attempts t = 1%nat
    /\ filter isToast t
       = [EvToastError "Failed to generate sermon" "Unexpected token in JSON";
          EvToastWarning "Using sample sermon data as fallback"
            "Real sermon generation is unavailable at the moment."].
Proof.
  apply (unclassified_error_is_shown_raw
           (constantEnv (FetchResolves (errorResponse 200 "OK" "<html>"))) "grief" 0
           "Unexpected token in JSON");
    try reflexivity; try lia.
Defined.
